(** * pnwstore / msiclient: query builders and segment retrieval

    A shallow embedding of [msiclient/client.py] (the waveform client over a
    sqlite3 [tsindex] table) and of [pnwstore/catalog.py] (the event-catalog
    and pick clients over MySQL), followed by the properties of the
    predicate compiler, the retrieval loop and the two catalog builders.

    Python [str] values are modelled as [string] (the bytes of their UTF-8
    encoding: membership, replacement and splitting on the ASCII characters
    the code uses act on those bytes exactly as on the code points).
    Calls that leave the program (database cursor, file system, the obspy
    decoder, the debugger hook) are recorded as [event]s and their answers
    are read from an explicit environment [Env]. *)

From Stdlib Require Import String Ascii List ZArith Bool Lia.
Import ListNotations.
Open Scope string_scope.

(** ** Python string primitives *)

Module PyStr.

(** [a in s] for a one-character [a]. *)
Fixpoint contains (a : ascii) (s : string) : bool :=
  match s with
  | EmptyString => false
  | String c s' => Ascii.eqb c a || contains a s'
  end.

(** [s.replace(a, b)] for one-character [a] and [b]. *)
Fixpoint replace (a b : ascii) (s : string) : string :=
  match s with
  | EmptyString => EmptyString
  | String c s' => String (if Ascii.eqb c a then b else c) (replace a b s')
  end.

(** [s.split(sep)] for a one-character [sep]; the result is never empty. *)
Fixpoint split (sep : ascii) (s : string) : list string :=
  match s with
  | EmptyString => [EmptyString]
  | String c s' =>
      if Ascii.eqb c sep then EmptyString :: split sep s'
      else match split sep s' with
           | w :: ws => String c w :: ws
           | [] => [String c EmptyString]
           end
  end.

(** [sep.join(l)]. *)
Definition join (sep : string) (l : list string) : string :=
  String.concat sep l.

(** [s.upper()], on the ASCII letters. *)
Definition upper_char (c : ascii) : ascii :=
  let n := nat_of_ascii c in
  if andb (97 <=? n)%nat (n <=? 122)%nat then ascii_of_nat (n - 32) else c.

Fixpoint upper (s : string) : string :=
  match s with
  | EmptyString => EmptyString
  | String c s' => String (upper_char c) (upper s')
  end.

(** [s.count(a)]. *)
Fixpoint count (a : ascii) (s : string) : nat :=
  match s with
  | EmptyString => 0
  | String c s' => (if Ascii.eqb c a then 1 else 0) + count a s'
  end.

(** [k in names] for a list of strings. *)
Definition mem (k : string) (names : list string) : bool :=
  existsb (String.eqb k) names.

End PyStr.

(** The double-quote character, as a one-character string. *)
Definition dq : string := String (ascii_of_nat 34) EmptyString.

(** ** [wildcard_mapper] (client.py, lines 47-52) *)

Definition wildcard_mapper (c : string) : string :=
  let c := if PyStr.contains "*" c then PyStr.replace "*" "%" c else c in
  let c := if PyStr.contains "?" c then PyStr.replace "?" "_" c else c in
  c.

(** The translation of one character: [*] to [%], [?] to [_]. *)
Definition wildcard_char (c : ascii) : ascii :=
  if Ascii.eqb c "*" then "%"%char
  else if Ascii.eqb c "?" then "_"%char
  else c.

(** ** Values, exceptions and observable events *)

(** The Python values the builders distinguish by [isinstance]: a [str], an
    [obspy.UTCDateTime] (by its instant, an integer count of the smallest
    unit obspy compares), and anything else (by its [str()] rendering). *)
Inductive pyval :=
| VStr (s : string)
| VUTC (t : Z)
| VOther (repr : string).

Inductive exn :=
| ValueError (msg : string)
| TypeError (msg : string)
| NotImplementedError (msg : string)
| UnboundLocalError (name : string)
| NameError (name : string)
| IndexError
| BdbQuit
| ExternalError (origin : string).

(** A filter tuple of [get_waveforms]: the six positional arguments. *)
Record request := {
  network : string;
  station : string;
  location : string;
  channel : string;
  starttime : pyval;
  endtime : pyval }.

(** The three [warnings.warn] sites of client.py that the model reaches. *)
Inductive warning :=
| RequestFailed (b : request) (e : exn)   (* failed to run request {_b}: {e} *)
| WriteFailed (file : string)             (* Attempt to write to "{filename}" failed *)
| BulkWriteFailed (file : string).        (* failed to save bulk stream to "{fn}" *)

Inductive event :=
| Execute (sql : string)        (* cursor.execute(sql) *)
| OpenRead (file : string)      (* open(file, 'rb') *)
| Print (msg : string)
| Warn (w : warning)
| Breakpoint                    (* breakpoint() *)
| WriteStream (file : string).  (* st.write(file) *)

(** One decoded segment of an [obspy.Stream]. *)
Inductive trace := Trace (id : string) (samples : list Z).

(** What the collaborators answer. [None] stands for a raised exception. *)
Record Env := {
  utc_str : Z -> string;                   (* str(t) of a UTCDateTime *)
  utc_timestamp : Z -> string;             (* str(t.timestamp) *)
  utc_parse : pyval -> option Z;           (* obspy.UTCDateTime(x) *)
  mixed_gt : pyval -> pyval -> option bool; (* a > b across other types *)
  sqlite_rows : string -> option (list (nat * nat * string));
  mysql_rows : string -> option (list (list string));
  file_bytes : string -> option (list Byte.byte);
  obspy_read : list Byte.byte -> pyval -> pyval -> option (list trace);
  debugger_resumes : bool;                 (* breakpoint() returns *)
  attach_inventory : list trace -> list trace;
  stream_write : string -> list trace -> bool }.

(** ** The effect monad: a log of events and a result or an exception *)

Definition M (A : Type) : Type := (list event * (exn + A))%type.

Definition ret {A} (a : A) : M A := ([], inr a).
Definition raise {A} (e : exn) : M A := ([], inl e).
Definition emit (ev : event) : M unit := ([ev], inr tt).
Definition lift {A} (r : exn + A) : M A := ([], r).

Definition bind {A B} (m : M A) (k : A -> M B) : M B :=
  match m with
  | (t, inl e) => (t, inl e)
  | (t, inr a) => let '(t', r) := k a in (app t t', r)
  end.

Notation "x <- m ;; k" := (bind m (fun x => k))
  (at level 61, m at next level, right associativity).
Notation "m ;;; k" := (bind m (fun _ => k))
  (at level 61, right associativity).

(** The statements a log shows as sent to the database cursor. *)
Fixpoint executed (t : list event) : list string :=
  match t with
  | [] => []
  | Execute sql :: t' => sql :: executed t'
  | _ :: t' => executed t'
  end.

(** The files a log shows as opened. *)
Fixpoint opened (t : list event) : list string :=
  match t with
  | [] => []
  | OpenRead f :: t' => f :: opened t'
  | _ :: t' => opened t'
  end.

(** The warnings of a log. *)
Fixpoint warnings (t : list event) : list warning :=
  match t with
  | [] => []
  | Warn w :: t' => w :: warnings t'
  | _ :: t' => warnings t'
  end.

(** ** The predicate as a tree, and its rendering *)

(** A comparison on one column against a single-quoted value. *)
Inductive atom :=
| AEq (col val : string)      (* col = 'val' *)
| ALike (col pat : string).   (* col LIKE 'pat' *)

Inductive cond :=
| CAtom (a : atom)
| COr (alts : list atom)      (* (a1 OR a2 OR ...) *)
| CGt (col lit : string)      (* col>"lit" *)
| CLt (col lit : string)      (* col<"lit" *)
| CEqD (col lit : string).    (* col = "lit" *)

Definition render_atom (a : atom) : string :=
  match a with
  | AEq k v => k ++ " = '" ++ v ++ "'"
  | ALike k v => k ++ " LIKE '" ++ v ++ "'"
  end.

Definition render (c : cond) : string :=
  match c with
  | CAtom a => render_atom a
  | COr alts => "(" ++ PyStr.join " OR " (map render_atom alts) ++ ")"
  | CGt k v => k ++ ">" ++ dq ++ v ++ dq
  | CLt k v => k ++ "<" ++ dq ++ v ++ dq
  | CEqD k v => k ++ " = " ++ dq ++ v ++ dq
  end.

(** ** [WaveformClient.get_waveforms]: the predicate (client.py, 120-173) *)

(** Keyword arguments of [get_waveforms]. [minimumlength] and [longestonly]
    are [None] for Python's [None]; [inventory] is [None] when the keyword
    is absent and otherwise tells whether its value is an
    [obspy.Inventory]. *)
Record options := {
  quality : pyval;
  minimumlength : option pyval;
  longestonly : option pyval;
  filename : option string;
  attach_response : bool;
  inventory : option bool }.

(** Lines 135-142: one element of a comma-delimited value. *)
Definition elem_q (k w : string) : string :=
  if PyStr.contains "%" w || PyStr.contains "_" w
  then k ++ " LIKE '" ++ w ++ "'"
  else k ++ " = '" ++ w ++ "'".

(** Lines 126-150: the unit compiled for one field. *)
Definition field_q (k v : string) : string :=
  let haswild := PyStr.contains "?" v || PyStr.contains "*" v in
  let v := if haswild then wildcard_mapper v else v in
  if PyStr.contains "," v then
    "(" ++ PyStr.join " OR " (map (elem_q k) (PyStr.split "," v)) ++ ")"
  else if haswild then k ++ " LIKE '" ++ v ++ "'"
  else k ++ " = '" ++ v ++ "'".

(** The same two functions, producing the tree. *)
Definition elem_atom (k w : string) : atom :=
  if PyStr.contains "%" w || PyStr.contains "_" w then ALike k w else AEq k w.

Definition field_cond (k v : string) : cond :=
  let haswild := PyStr.contains "?" v || PyStr.contains "*" v in
  let v := if haswild then wildcard_mapper v else v in
  if PyStr.contains "," v then COr (map (elem_atom k) (PyStr.split "," v))
  else if haswild then CAtom (ALike k v)
  else CAtom (AEq k v).

(** Line 125: the four field names zipped with the four arguments. *)
Definition fields (rq : request) : list (string * string) :=
  [ ("network", network rq); ("station", station rq);
    ("location", location rq); ("channel", channel rq) ].

Definition select_prefix : string :=
  "SELECT byteoffset, bytes, filename FROM tsindex WHERE ".

Definition start_after_end : exn := ValueError "starttime is after endtime".

Section Waveform.

Variable E : Env.

(** [f"{v}"]. *)
Definition py_str (v : pyval) : string :=
  match v with
  | VStr s => s
  | VUTC t => utc_str E t
  | VOther r => r
  end.

(** [isinstance(v, (str, obspy.UTCDateTime))]. *)
Definition is_time (v : pyval) : bool :=
  match v with
  | VStr _ | VUTC _ => true
  | VOther _ => false
  end.

(** [a > b]: instants by their order, strings by code points. *)
Definition py_gt (a b : pyval) : exn + bool :=
  match a, b with
  | VUTC x, VUTC y => inr (y <? x)%Z
  | VStr x, VStr y => inr (String.ltb y x)
  | _, _ =>
      match mixed_gt E a b with
      | Some r => inr r
      | None => inl (ExternalError "comparison")
      end
  end.

(** Lines 124-168: the list [_qs], or the [TypeError] of lines 159/165. *)
Definition compile_qs (rq : request) (o : options) : exn + list string :=
  let qs := map (fun kv => field_q (fst kv) (snd kv)) (fields rq) in
  if is_time (starttime rq) then
    let qs := app qs ["endtime>" ++ dq ++ py_str (starttime rq) ++ dq] in
    if is_time (endtime rq) then
      let qs := app qs ["starttime<" ++ dq ++ py_str (endtime rq) ++ dq] in
      match quality o with
      | VStr q => inr (app qs ["quality = " ++ dq ++ q ++ dq])
      | _ => inr qs
      end
    else inl (TypeError "endtime must be type str or UTCDateTime")
  else inl (TypeError "starttime must be type str or UTCDateTime").

(** The same list as trees. *)
Definition field_conds (rq : request) : list cond :=
  map (fun kv => field_cond (fst kv) (snd kv)) (fields rq).

Definition time_conds (rq : request) : list cond :=
  [ CGt "endtime" (py_str (starttime rq)); CLt "starttime" (py_str (endtime rq)) ].

Definition quality_conds (o : options) : list cond :=
  match quality o with
  | VStr q => [CEqD "quality" q]
  | _ => []
  end.

Definition compile_conds (rq : request) (o : options) : exn + list cond :=
  if is_time (starttime rq) then
    if is_time (endtime rq) then
      inr (app (field_conds rq) (app (time_conds rq) (quality_conds o)))
    else inl (TypeError "endtime must be type str or UTCDateTime")
  else inl (TypeError "starttime must be type str or UTCDateTime").

(** Lines 170-173. *)
Definition query_str (qs : list string) : string :=
  select_prefix ++ PyStr.join " AND " qs.

(** ** [get_waveforms]: retrieval (client.py, 175-222) *)

(** [cursor.execute(sql)] on the sqlite index. *)
Definition execute_index (sql : string) : M (list (nat * nat * string)) :=
  emit (Execute sql) ;;;
  match sqlite_rows E sql with
  | Some rows => ret rows
  | None => raise (ExternalError "sqlite3")
  end.

(** [open(seedfile, 'rb')], [f.seek(byteoffset)], [f.read(byte)]. *)
Definition read_range (file : string) (offset len : nat) : M (list Byte.byte) :=
  emit (OpenRead file) ;;;
  match file_bytes E file with
  | Some content => ret (firstn len (skipn offset content))
  | None => raise (ExternalError "open")
  end.

(** [breakpoint()]: the debugger takes over; the call returns when the
    session is resumed or the hook is disabled, and raises [BdbQuit] when the
    session is quit. *)
Definition breakpoint : M unit :=
  emit Breakpoint ;;;
  if debugger_resumes E then ret tt else raise BdbQuit.

(** Lines 178-186: the loop over the index records. *)
Fixpoint read_records (s e : pyval) (rows : list (nat * nat * string))
    (st : list trace) : M (list trace) :=
  match rows with
  | [] => ret st
  | (byteoffset, nbytes, seedfile) :: rows' =>
      buff <- read_range seedfile byteoffset nbytes ;;
      match obspy_read E buff s e with
      | Some trs => read_records s e rows' (app st trs)
      | None => breakpoint ;;; read_records s e rows' st
      end
  end.

(** Lines 188-196. *)
Definition placeholder (name : string) (v : option pyval) : M unit :=
  match v with
  | None => ret tt
  | Some _ => raise (NotImplementedError (name ++ " placeholder - not used"))
  end.

(** Lines 199-212. The name [Path] is not bound in client.py, so the test
    of line 203, reached for anything but an [obspy.Inventory], raises. *)
Definition attach (o : options) (st : list trace) : M (list trace) :=
  if attach_response o then
    match inventory o with
    | None => ret st
    | Some true => ret (attach_inventory E st)
    | Some false => raise (NameError "Path")
    end
  else ret st.

(** Lines 214-220. *)
Definition save (o : options) (st : list trace) : M unit :=
  match filename o with
  | None => ret tt
  | Some fn =>
      emit (WriteStream fn) ;;;
      if stream_write E fn st then ret tt else emit (Warn (WriteFailed fn))
  end.

Definition get_waveforms (rq : request) (o : options) : M (list trace) :=
  gt <- lift (py_gt (starttime rq) (endtime rq)) ;;
  if (gt : bool) then raise start_after_end
  else
    qs <- lift (compile_qs rq o) ;;
    rst <- execute_index (query_str qs) ;;
    st <- read_records (starttime rq) (endtime rq) rst [] ;;
    placeholder "minimumlength" (minimumlength o) ;;;
    placeholder "longestonly" (longestonly o) ;;;
    st <- attach o st ;;
    save o st ;;;
    ret st.

(** ** [get_waveforms_bulk] (client.py, 226-250) *)

Inductive bulk_arg :=
| BList (items : list request)
| BOther.

(** [kwargs] once [filename] has been popped. *)
Definition without_filename (o : options) : options :=
  {| quality := quality o; minimumlength := minimumlength o;
     longestonly := longestonly o; filename := None;
     attach_response := attach_response o; inventory := inventory o |}.

(** Lines 237-243. *)
Fixpoint bulk_loop (items : list request) (o : options) (st : list trace)
    : M (list trace) :=
  match items with
  | [] => ret st
  | b :: rest =>
      match get_waveforms b o with
      | (t, inr s) => (t, inr tt) ;;; bulk_loop rest o (app st s)
      | (t, inl e) =>
          (t, inr tt) ;;; emit (Warn (RequestFailed b e)) ;;; bulk_loop rest o st
      end
  end.

(** Lines 244-249: [fn] is the popped filename or [False]. *)
Definition bulk_save (fn : option string) (st : list trace) : M unit :=
  match fn with
  | None => ret tt
  | Some f =>
      if String.eqb f EmptyString then ret tt
      else
        emit (WriteStream f) ;;;
        if stream_write E f st then ret tt else emit (Warn (BulkWriteFailed f))
  end.

Definition get_waveforms_bulk (bulk : bulk_arg) (o : options) : M (list trace) :=
  match bulk with
  | BList items =>
      st <- bulk_loop items (without_filename o) [] ;;
      bulk_save (filename o) st ;;;
      ret st
  | BOther => raise (UnboundLocalError "fn")
  end.

End Waveform.

(** ** What a compiled predicate selects in [tsindex]

    The sqlite semantics of the operators the builder emits: [=], [<] and
    [>] compare TEXT bytewise, [LIKE] matches [%] against any run of
    characters and [_] against exactly one, ignoring ASCII case, and a
    double-quoted token that names no column is read as a string. *)

Record index_record := {
  r_network : string;
  r_station : string;
  r_location : string;
  r_channel : string;
  r_quality : string;
  r_starttime : string;
  r_endtime : string;
  r_byteoffset : nat;
  r_bytes : nat;
  r_filename : string }.

Definition column (r : index_record) (k : string) : option string :=
  if String.eqb k "network" then Some (r_network r)
  else if String.eqb k "station" then Some (r_station r)
  else if String.eqb k "location" then Some (r_location r)
  else if String.eqb k "channel" then Some (r_channel r)
  else if String.eqb k "quality" then Some (r_quality r)
  else if String.eqb k "starttime" then Some (r_starttime r)
  else if String.eqb k "endtime" then Some (r_endtime r)
  else None.

Fixpoint sql_like (p : string) : string -> bool :=
  match p with
  | EmptyString => fun s => match s with EmptyString => true | _ => false end
  | String c p' =>
      if Ascii.eqb c "%" then
        fix star (s : string) : bool :=
          sql_like p' s
          || match s with EmptyString => false | String _ s' => star s' end
      else fun s =>
        match s with
        | EmptyString => false
        | String d s' =>
            (Ascii.eqb c "_"
             || Ascii.eqb (PyStr.upper_char c) (PyStr.upper_char d))
            && sql_like p' s'
        end
  end.

Definition on_column (r : index_record) (k : string) (p : string -> bool) : bool :=
  match column r k with
  | Some x => p x
  | None => false
  end.

Definition holds_atom (r : index_record) (a : atom) : bool :=
  match a with
  | AEq k v => on_column r k (fun x => String.eqb x v)
  | ALike k p => on_column r k (sql_like p)
  end.

Definition holds (r : index_record) (c : cond) : bool :=
  match c with
  | CAtom a => holds_atom r a
  | COr alts => existsb (holds_atom r) alts
  | CGt k v => on_column r k (fun x => String.ltb v x)
  | CLt k v => on_column r k (fun x => String.ltb x v)
  | CEqD k v => on_column r k (fun x => String.eqb x v)
  end.

(** The conjunction of line 171. *)
Definition selects (conds : list cond) (r : index_record) : bool :=
  forallb (holds r) conds.

(** ** The catalog clients (catalog.py) *)

(** The [keys] argument of [query]: a string or a list of column names. *)
Inductive keys_arg :=
| KStr (s : string)
| KList (l : list string).

(** The arguments handed to [pd.DataFrame]: the rows and the column names. *)
Record dataframe := {
  df_data : list (list string);
  df_columns : list string }.

(** [rst2df(result, keys)] for the two kinds of [keys] the clients pass. *)
Definition rst2df (result : list (list string)) (keys : keys_arg) : dataframe :=
  {| df_data := result;
     df_columns := match keys with KStr s => [s] | KList l => l end |}.

(** Lines 29-35 and 124-130. *)
Definition query_key (keys : keys_arg) : string :=
  match keys with
  | KStr s => s
  | KList l => if (0 <? List.length l)%nat then PyStr.join ", " l else "*"
  end.

(** Lines 74-79 and 172-177, with the builder's conjunction word. *)
Definition where_clause (conj : string) (qs : list string) : string :=
  match qs with
  | [] => EmptyString
  | [q] => " WHERE " ++ q
  | _ => " WHERE " ++ PyStr.join conj qs
  end.

(** [[i[0] for i in rows]]. *)
Fixpoint first_fields (rows : list (list string)) : exn + list string :=
  match rows with
  | [] => inr []
  | [] :: _ => inl IndexError
  | (x :: _) :: rest =>
      match first_fields rest with
      | inr l => inr (x :: l)
      | inl e => inl e
      end
  end.

Definition show_columns (table : string) : string :=
  "SHOW COLUMNS FROM " ++ table ++ ";".

Definition unsupported_wildcard : exn :=
  ValueError "Only wildcards ? and * are supported.".

Definition unsupported_key (k : string) (shown : string) : exn :=
  ValueError ("Unsupported query key <" ++ k ++ ">: " ++ shown).

Section Catalog.

Variable E : Env.

(** [cursor.execute(sql)] followed by [cursor.fetchall()]. *)
Definition execute_mysql (sql : string) : M (list (list string)) :=
  emit (Execute sql) ;;;
  match mysql_rows E sql with
  | Some rows => ret rows
  | None => raise (ExternalError "mysql")
  end.

(** Lines 21-25 and 117-121: the column names, fetched when [self._keys]
    is not set yet. *)
Definition ensure_keys (table : string) (self_keys : option (list string))
    : M (list string) :=
  match self_keys with
  | Some ks => ret ks
  | None =>
      rows <- execute_mysql (show_columns table) ;;
      lift (first_fields rows)
  end.

(** [self._keys] once [query] has run. *)
Definition keys_after (table : string) (self_keys : option (list string))
    : option (list string) :=
  match snd (ensure_keys table self_keys) with
  | inr ks => Some ks
  | inl _ => self_keys
  end.

(** Lines 81-82 and 179-180. *)
Definition show (showquery : bool) (sql : string) : M unit :=
  if showquery then emit (Print sql) else ret tt.

(** Lines 83-89 and 182-188. *)
Definition run_select (sql : string) (qk : string) (ks : list string)
    (keys : keys_arg) : M dataframe :=
  result <- execute_mysql sql ;;
  if PyStr.contains "*" qk then ret (rst2df result (KList ks))
  else ret (rst2df result keys).

End Catalog.

Module QuakeClient.

Definition table : string := "catalog".

Definition known_keys : list string :=
  [ "mintime"; "maxtime"; "contributor"; "minlatitude"; "maxlatitude";
    "minlongitude"; "maxlongitude"; "mindepth"; "maxdepth";
    "minmagnitude"; "maxmagnitude"; "source_id"; "event_type" ].

Definition not_implemented (k : string) : event :=
  Print ("query by " ++ k ++ " not implement.").

Section Query.

Variable E : Env.

(** Lines 41-50: a time bound, converted when it is not a [UTCDateTime]. *)
Definition time_bound (op : string) (i : pyval) : M (list string) :=
  match i with
  | VUTC t => ret ["timestamp " ++ op ++ " " ++ utc_timestamp E t]
  | _ =>
      match utc_parse E i with
      | Some t => ret ["timestamp " ++ op ++ " " ++ utc_timestamp E t]
      | None => raise (ExternalError "obspy.UTCDateTime")
      end
  end.

(** Lines 41-72: what one keyword argument appends to [_qs]. *)
Definition filter (k : string) (i : pyval) : M (list string) :=
  if String.eqb k "mintime" then time_bound ">=" i
  else if String.eqb k "maxtime" then time_bound "<=" i
  else if String.eqb k "contributor" then ret ["contributor = '" ++ py_str E i ++ "'"]
  else if String.eqb k "minlatitude" then ret ["latitude >= " ++ py_str E i]
  else if String.eqb k "maxlatitude" then ret ["latitude <= " ++ py_str E i]
  else if String.eqb k "minlongitude" then ret ["longitude >= " ++ py_str E i]
  else if String.eqb k "maxlongitude" then ret ["longitude <= " ++ py_str E i]
  else if String.eqb k "mindepth" then ret ["depth >= " ++ py_str E i]
  else if String.eqb k "maxdepth" then ret ["depth <= " ++ py_str E i]
  else if String.eqb k "minmagnitude" then ret ["magnitude >= " ++ py_str E i]
  else if String.eqb k "maxmagnitude" then ret ["magnitude <= " ++ py_str E i]
  else if PyStr.mem k ["source_id"; "event_type"]
       then ret [k ++ " = '" ++ py_str E i ++ "'"]
  else emit (not_implemented k) ;;; ret [].

(** Lines 39-72: the loop over [kwargs.items()]. *)
Fixpoint filters (kwargs : list (string * pyval)) (qs : list string)
    : M (list string) :=
  match kwargs with
  | [] => ret qs
  | (k, i) :: rest =>
      q <- filter k i ;;
      filters rest (app qs q)
  end.

(** Lines 27-38 and 74-80. *)
Definition statement (keys : keys_arg) (qs : list string) : string :=
  "SELECT " ++ query_key keys ++ " FROM catalog " ++ where_clause " and " qs ++ ";".

Definition query (self_keys : option (list string)) (keys : keys_arg)
    (showquery : bool) (kwargs : list (string * pyval)) : M dataframe :=
  ks <- ensure_keys E table self_keys ;;
  qs <- filters kwargs [] ;;
  show showquery (statement keys qs) ;;;
  run_select E (statement keys qs) (query_key keys) ks keys.

End Query.

End QuakeClient.

Module PickClient.

Definition text_keys : list string :=
  [ "station"; "network"; "location"; "channel"; "evaluation_mode"; "source_id" ].

Definition known_keys : list string :=
  app text_keys [ "phase"; "mintime"; "maxtime" ].

(** Lines 149-152 and 155-158. *)
Definition text_q (k i shown : string) : string :=
  if negb (PyStr.contains "?" i) && negb (PyStr.contains "*" i)
  then k ++ " = '" ++ shown ++ "'"
  else k ++ " LIKE '" ++ wildcard_mapper i ++ "'".

Section Query.

Variable E : Env.

(** Lines 136-170: one iteration. The state is the local [_q], unbound
    ([None]) until some iteration assigns it, and the list [_qs]. *)
Definition step (k : string) (i : pyval) (st : option string * list string)
    : exn + (option string * list string) :=
  let '(q, qs) := st in
  match i with
  | VStr s =>
      if PyStr.contains "_" s || PyStr.contains "%" s || PyStr.contains "-" s
      then inl unsupported_wildcard
      else if PyStr.mem k text_keys then
        let q' := text_q k s s in
        inr (Some q', app qs [q'])
      else if String.eqb k "phase" then
        let q' := text_q k s (PyStr.upper s) in
        inr (Some q', app qs [q'])
      else inl (unsupported_key k s)
  | VUTC t =>
      let q' :=
        if String.eqb k "mintime" then Some ("timestamp >= " ++ utc_timestamp E t)
        else if String.eqb k "maxtime" then Some ("timestamp <= " ++ utc_timestamp E t)
        else q in
      match q' with
      | Some x => inr (q', app qs [x])
      | None => inl (UnboundLocalError "_q")
      end
  | VOther r => inl (unsupported_key k r)
  end.

Fixpoint filters (kwargs : list (string * pyval)) (st : option string * list string)
    : exn + (option string * list string) :=
  match kwargs with
  | [] => inr st
  | (k, i) :: rest =>
      match step k i st with
      | inr st' => filters rest st'
      | inl e => inl e
      end
  end.

(** Lines 123-133 and 172-178. *)
Definition statement (table : string) (keys : keys_arg) (qs : list string) : string :=
  "SELECT " ++ query_key keys ++ " FROM " ++ table ++ " "
  ++ where_clause " AND " qs ++ ";".

(** [table] is [self._table], fixed by the constructor. *)
Definition query (table : string) (self_keys : option (list string))
    (keys : keys_arg) (showquery : bool) (kwargs : list (string * pyval))
    : M dataframe :=
  ks <- ensure_keys E table self_keys ;;
  st <- lift (filters kwargs (None, [])) ;;
  show showquery (statement table keys (snd st)) ;;;
  run_select E (statement table keys (snd st)) (query_key keys) ks keys.

End Query.

End PickClient.

(** ** A concrete environment

    An index with two records for station SEA, both in a file that decodes,
    and two for station RCM, the first in a file that does not decode.
    Instants are seconds; [0] is rendered as the first second of 2020. *)

Module Demo.

Definition iso (t : Z) : string :=
  if (t =? 0)%Z then "2020-01-01T00:00:00.000000Z"
  else if (t =? 60)%Z then "2020-01-01T00:01:00.000000Z"
  else "2020-01-01T00:02:00.000000Z".

Definition stamp (t : Z) : string :=
  if (t =? 0)%Z then "1577836800.0"
  else if (t =? 60)%Z then "1577836860.0"
  else "1577836920.0".

Definition good : list Byte.byte := [Byte.x01; Byte.x02; Byte.x03; Byte.x04].
Definition bad : list Byte.byte := [Byte.xff; Byte.xff].

Definition tr1 : trace := Trace "UW.RCM..HHZ" [1; 2; 3]%Z.
Definition tr2 : trace := Trace "UW.RCS..HHZ" [4; 5]%Z.

Definition decode (buff : list Byte.byte) (s e : pyval) : option (list trace) :=
  match buff with
  | [Byte.x01; Byte.x02] => Some [tr1]
  | [Byte.x03; Byte.x04] => Some [tr2]
  | _ => None
  end.

Definition mentions (sub sql : string) : bool :=
  match String.index 0 sub sql with
  | Some _ => true
  | None => false
  end.

Definition rows (sql : string) : option (list (nat * nat * string)) :=
  if mentions "'RCM'" sql
  then Some [(0, 2, "bad.mseed"); (2, 2, "good.mseed")]
  else if mentions "'SEA'" sql
  then Some [(0, 2, "good.mseed"); (2, 2, "good.mseed")]
  else Some [].

Definition files (name : string) : option (list Byte.byte) :=
  if String.eqb name "good.mseed" then Some good
  else if String.eqb name "bad.mseed" then Some bad
  else None.

Definition catalog_rows (sql : string) : option (list (list string)) :=
  if String.eqb sql "SHOW COLUMNS FROM catalog;"
  then Some [["source_id"; "varchar"]; ["timestamp"; "double"]]
  else if String.eqb sql "SHOW COLUMNS FROM picks_uw;"
  then Some [["station"; "varchar"]; ["phase"; "varchar"]]
  else Some [].

Definition env : Env :=
  {| utc_str := iso;
     utc_timestamp := stamp;
     utc_parse := fun _ => None;
     mixed_gt := fun _ _ => None;
     sqlite_rows := rows;
     mysql_rows := catalog_rows;
     file_bytes := files;
     obspy_read := decode;
     debugger_resumes := true;
     attach_inventory := fun st => st;
     stream_write := fun _ _ => true |}.

(** The same environment with a debugger session that is quit. *)
Definition env_quit : Env :=
  {| utc_str := iso;
     utc_timestamp := stamp;
     utc_parse := fun _ => None;
     mixed_gt := fun _ _ => None;
     sqlite_rows := rows;
     mysql_rows := catalog_rows;
     file_bytes := files;
     obspy_read := decode;
     debugger_resumes := false;
     attach_inventory := fun st => st;
     stream_write := fun _ _ => true |}.

Definition defaults : options :=
  {| quality := VOther "None"; minimumlength := None; longestonly := None;
     filename := None; attach_response := false; inventory := None |}.

Definition rq (n s l c : string) (t0 t1 : Z) : request :=
  {| network := n; station := s; location := l; channel := c;
     starttime := VUTC t0; endtime := VUTC t1 |}.

(** Requests over that index: exact identifiers, a comma-delimited
    station, a reversed window, the station whose first record does not
    decode, and the wildcard request of the worked scenario. *)
Definition exact_rq : request := rq "UW" "SEA" EmptyString "HHZ" 0 60.
Definition listed_rq : request := rq "UW" "MBW*,JCW" EmptyString "HHZ" 0 60.
Definition reversed_rq : request := rq "UW" "SEA" EmptyString "HHZ" 60 0.
Definition undecoded_rq : request := rq "UW" "RCM" EmptyString "HHZ" 0 60.
Definition scenario_rq : request := rq "UW" "RCM*" "*" "?HZ" 0 60.

Definition record (sta s e : string) : index_record :=
  {| r_network := "UW"; r_station := sta; r_location := EmptyString;
     r_channel := "HHZ"; r_quality := "D"; r_starttime := s; r_endtime := e;
     r_byteoffset := 0; r_bytes := 512; r_filename := "good.mseed" |}.

(** Two records that overlap the window from both sides, and one that ends
    at the very instant the window starts. *)
Definition early : index_record :=
  record "RCM" "2019-12-31T23:59:50.000000Z" "2020-01-01T00:00:05.000000Z".
Definition late : index_record :=
  record "RCM" "2020-01-01T00:00:04.000000Z" "2020-01-01T00:01:20.000000Z".
Definition touching : index_record :=
  record "RCM" "2019-12-31T23:59:00.000000Z" "2020-01-01T00:00:00.000000Z".

Definition cached : option (list string) := Some ["source_id"; "timestamp"].

End Demo.

(** ** Vocabulary of the properties *)

(** A filter value with none of [*], [?] and [,]. *)
Definition exact_identifier (v : string) : bool :=
  negb (PyStr.contains "*" v) && negb (PyStr.contains "?" v)
  && negb (PyStr.contains "," v).

(** An equality comparison, single- or double-quoted. *)
Definition is_equality (c : cond) : bool :=
  match c with
  | CAtom (AEq _ _) | CEqD _ _ => true
  | _ => false
  end.

Definition is_time_comparison (c : cond) : bool :=
  match c with
  | CGt _ _ | CLt _ _ => true
  | _ => false
  end.

(** The stream one sub-request of a bulk call contributes. *)
Definition delivered (E : Env) (o : options) (b : request) : list trace :=
  match snd (get_waveforms E b o) with
  | inr s => s
  | inl _ => []
  end.

(** The sub-requests a log reports as failed. *)
Fixpoint failures (t : list event) : list (request * exn) :=
  match t with
  | [] => []
  | Warn (RequestFailed b e) :: t' => (b, e) :: failures t'
  | _ :: t' => failures t'
  end.

(** An event that tells which record or request went wrong. *)
Definition reports (ev : event) : bool :=
  match ev with
  | Warn _ | Print _ => true
  | _ => false
  end.

(** A computation is silent when its log reports nothing: no warning and
    no printed line. *)
Definition silent {A} (m : M A) : Prop :=
  existsb reports (fst m) = false.

(** What one sub-request adds to the failures of a bulk call. *)
Definition failure_of (E : Env) (o : options) (b : request) : list (request * exn) :=
  match snd (get_waveforms E b o) with
  | inr _ => []
  | inl e => [(b, e)]
  end.

(** A filter value the pick builder's wildcard guard lets through. *)
Definition passes_guard (s : string) : bool :=
  negb (PyStr.contains "_" s || PyStr.contains "%" s || PyStr.contains "-" s).

(** The local [_q] is unbound exactly while [_qs] is empty, and otherwise
    holds the predicate appended last. *)
Definition q_invariant (st : option string * list string) : Prop :=
  match fst st with
  | None => snd st = []
  | Some x => exists qs', snd st = (qs' ++ [x])%list
  end.

(** A value that gets past the pick builder's type dispatch and wildcard
    guard down to the test of its key against the text keys. *)
Definition reaches_key_test (v : pyval) : bool :=
  match v with
  | VStr s => passes_guard s
  | VUTC _ => false
  | VOther _ => true
  end.

(** A computation that never raises the unsupported-wildcard error. *)
Definition never_rejects_wildcards {A} (m : M A) : Prop :=
  snd m <> inl unsupported_wildcard.

(** ** [PickClient.__init__] (catalog.py, lines 93-114)

    The connection itself is made by [mysql.connector.connect]; the model
    starts at the cursor. *)

Module PickClientInit.

(** [s.lower()], on the ASCII letters. *)
Definition lower_char (c : ascii) : ascii :=
  let n := nat_of_ascii c in
  if andb (65 <=? n)%nat (n <=? 90)%nat then ascii_of_nat (n + 32) else c.

Fixpoint lower (s : string) : string :=
  match s with
  | EmptyString => EmptyString
  | String c s' => String (lower_char c) (lower s')
  end.

(** [sub in s] for strings. *)
Fixpoint has_sub (sub s : string) : bool :=
  String.prefix sub s
  || match s with
     | EmptyString => false
     | String _ s' => has_sub sub s'
     end.

(** The attributes the constructor sets. *)
Record client := {
  _contributor : string;
  _table_avail : list string;
  _table : string }.

Definition show_tables : string := "SHOW TABLES;".

Definition table_of (contributor : string) : string :=
  "picks_" ++ lower contributor.

Definition unsupported_contributor (contributor : string) : exn :=
  ValueError ("Unsupported <contributor>: " ++ lower contributor ++ ".").

(** Lines 105-114. *)
Definition init (E : Env) (contributor : string) : M client :=
  rows <- execute_mysql E show_tables ;;
  names <- lift (first_fields rows) ;;
  let avail := List.filter (has_sub "picks_") names in
  if PyStr.mem (table_of contributor) avail
  then ret {| _contributor := contributor; _table_avail := avail;
              _table := table_of contributor |}
  else raise (unsupported_contributor contributor).

End PickClientInit.

(** ** More vocabulary *)

(** The files a log shows as written. *)
Fixpoint written (t : list event) : list string :=
  match t with
  | [] => []
  | WriteStream f :: t' => f :: written t'
  | _ :: t' => written t'
  end.

(** The lines a log shows as printed. *)
Fixpoint printed (t : list event) : list string :=
  match t with
  | [] => []
  | Print msg :: t' => msg :: printed t'
  | _ :: t' => printed t'
  end.

(** What lines 179-184 get out of one index record: the traces decoded from
    its byte range, or [None] when the file cannot be opened or the bytes do
    not decode. *)
Definition decoded (E : Env) (s e : pyval) (row : nat * nat * string)
    : option (list trace) :=
  let '(byteoffset, nbytes, seedfile) := row in
  match file_bytes E seedfile with
  | Some content => obspy_read E (firstn nbytes (skipn byteoffset content)) s e
  | None => None
  end.

Definition traces_of (E : Env) (s e : pyval) (row : nat * nat * string)
    : list trace :=
  match decoded E s e row with
  | Some trs => trs
  | None => []
  end.

Definition file_of (row : nat * nat * string) : string := snd row.

(** Keyword arguments that ask for nothing after the retrieval. *)
Definition retrieval_only (o : options) : Prop :=
  minimumlength o = None /\ longestonly o = None
  /\ attach_response o = false /\ filename o = None.

(** The keys of a keyword list the catalog builder knows, and the others. *)
Definition quake_known (kv : string * pyval) : bool :=
  PyStr.mem (fst kv) QuakeClient.known_keys.

(** The column labels [query] passes to [rst2df]: the discovered columns
    when the selected keys hold an asterisk, the given keys otherwise. *)
Definition labels_of (qk : string) (ks : list string) (keys : keys_arg)
    : list string :=
  if PyStr.contains "*" qk then ks
  else match keys with KStr s => [s] | KList l => l end.

Definition labels (ks : list string) (keys : keys_arg) : list string :=
  labels_of (query_key keys) ks keys.

(** The column names and the compiled predicates, as the two builders have
    them when they reach lines 74 and 172. *)
Definition quake_prepared (E : Env) (self_keys : option (list string))
    (kwargs : list (string * pyval)) : M (list string * list string) :=
  ks <- ensure_keys E QuakeClient.table self_keys ;;
  qs <- QuakeClient.filters E kwargs [] ;;
  ret (ks, qs).

Definition pick_prepared (E : Env) (table : string)
    (self_keys : option (list string)) (kwargs : list (string * pyval))
    : M (list string * list string) :=
  ks <- ensure_keys E table self_keys ;;
  st <- lift (PickClient.filters E kwargs (None, [])) ;;
  ret (ks, snd st).

(** More concrete inputs. *)
Module Cases.

Definition tables (sql : string) : option (list (list string)) :=
  if String.eqb sql "SHOW TABLES;"
  then Some [["catalog"]; ["picks_uw"]; ["picks_cc"]]
  else Some [].

Definition env : Env :=
  {| utc_str := Demo.iso;
     utc_timestamp := Demo.stamp;
     utc_parse := fun v => match v with VStr _ => Some 60%Z | _ => None end;
     mixed_gt := fun _ _ => Some false;
     sqlite_rows := fun sql =>
       if Demo.mentions "'NOF'" sql
       then Some [(0, 2, "good.mseed"); (0, 2, "missing.mseed"); (2, 2, "good.mseed")]
       else Demo.rows sql;
     mysql_rows := tables;
     file_bytes := Demo.files;
     obspy_read := Demo.decode;
     debugger_resumes := true;
     attach_inventory := fun st => st;
     stream_write := fun _ _ => false |}.

Definition missing_rq : request := Demo.rq "UW" "NOF" EmptyString "HHZ" 0 60.

Definition bad_start_rq : request :=
  {| network := "UW"; station := "SEA"; location := EmptyString;
     channel := "HHZ"; starttime := VOther "1577836800"; endtime := VUTC 60 |}.

Definition with_minimumlength : options :=
  {| quality := VOther "None"; minimumlength := Some (VOther "30");
     longestonly := None; filename := None; attach_response := false;
     inventory := None |}.

Definition with_filename : options :=
  {| quality := VStr "D"; minimumlength := None; longestonly := None;
     filename := Some "out.mseed"; attach_response := false;
     inventory := None |}.

Definition with_inventory_path : options :=
  {| quality := VOther "None"; minimumlength := None; longestonly := None;
     filename := None; attach_response := true; inventory := Some false |}.

Definition mixed_kwargs : list (string * pyval) :=
  [("source_id", VStr "uw1"); ("foo", VStr "x"); ("mindepth", VOther "3")].

End Cases.

(** ** The index behind the cursor

    What line 175 gets back is decided by the database, not by client.py.
    The properties that speak of the records a call selects take it as a
    premise that the index answers the statement the way sqlite evaluates
    it: the rows of the records that satisfy every comparison joined by AND,
    each comparison read as [holds] reads it. *)

(** The three columns of the SELECT, for one record. *)
Definition locator (r : index_record) : nat * nat * string :=
  (r_byteoffset r, r_bytes r, r_filename r).



(** An index in the rendering of mseedindex, without zone letter, queried
    with [UTCDateTime] bounds, which render with one. *)
Module Overlap.

Definition record (file s e : string) : index_record :=
  {| r_network := "UW"; r_station := "RCM"; r_location := EmptyString;
     r_channel := "HHZ"; r_quality := "D"; r_starttime := s; r_endtime := e;
     r_byteoffset := 0; r_bytes := 2; r_filename := file |}.

(** The window is the first minute of 2020. [early] and [late] overlap it
    from both sides, [before] ends at the instant it starts and [after]
    starts at the instant it ends. *)
Definition early : index_record :=
  record "early.mseed" "2019-12-31T23:59:50.000000" "2020-01-01T00:00:05.000000".
Definition late : index_record :=
  record "late.mseed" "2020-01-01T00:00:04.000000" "2020-01-01T00:01:20.000000".
Definition before : index_record :=
  record "before.mseed" "2019-12-31T23:59:00.000000" "2020-01-01T00:00:00.000000".
Definition after : index_record :=
  record "after.mseed" "2020-01-01T00:01:00.000000" "2020-01-01T00:02:00.000000".

Definition index : list index_record := [early; late; before; after].

Definition rq : request := Demo.rq "UW" "RCM" EmptyString "HHZ" 0 60.

Definition conds : list cond :=
  app (field_conds rq) (app (time_conds Demo.env rq) (quality_conds Demo.defaults)).

Definition statement : string :=
  select_prefix ++ PyStr.join " AND " (map render conds).

Definition rows (sql : string) : option (list (nat * nat * string)) :=
  if String.eqb sql statement
  then Some (map locator (List.filter (selects conds) index))
  else Some [].

Definition env : Env :=
  {| utc_str := Demo.iso;
     utc_timestamp := Demo.stamp;
     utc_parse := fun _ => None;
     mixed_gt := fun _ _ => None;
     sqlite_rows := rows;
     mysql_rows := Demo.catalog_rows;
     file_bytes := fun _ => Some Demo.good;
     obspy_read := Demo.decode;
     debugger_resumes := true;
     attach_inventory := fun st => st;
     stream_write := fun _ _ => true |}.

End Overlap.

(** * Properties *)

(** ** The model on concrete inputs *)

Example wildcard_mapper_suffix : wildcard_mapper "RCM*" = "RCM%".
Proof. reflexivity. Qed.

Example wildcard_mapper_single : wildcard_mapper "?H?" = "_H_".
Proof. reflexivity. Qed.

Example wildcard_mapper_mixed : wildcard_mapper "*?a_%*" = "%_a_%%".
Proof. reflexivity. Qed.

Example split_two : PyStr.split "," "MBW*,JCW" = ["MBW*"; "JCW"].
Proof. reflexivity. Qed.

Example split_empty_elements :
  PyStr.split "," "a,,b," = ["a"; EmptyString; "b"; EmptyString].
Proof. reflexivity. Qed.

Example split_no_separator : PyStr.split "," "HHZ" = ["HHZ"].
Proof. reflexivity. Qed.

Example field_q_list :
  field_q "station" "MBW*,JCW" = "(station LIKE 'MBW%' OR station = 'JCW')".
Proof. reflexivity. Qed.

Example field_q_raw_underscore : field_q "station" "A_B" = "station = 'A_B'".
Proof. reflexivity. Qed.

Example render_time_comparison :
  render (CGt "endtime" "T") = "endtime>" ++ dq ++ "T" ++ dq.
Proof. reflexivity. Qed.

Example sql_like_suffix : sql_like "RCM%" "RCMX" = true.
Proof. reflexivity. Qed.

Example sql_like_one_char : sql_like "_HZ" "BHZ" = true /\ sql_like "_HZ" "HZ" = false.
Proof. split; reflexivity. Qed.

(** The worked scenario: the wildcard request compiles to three LIKE
    comparisons next to the network equality, and selects both records that
    overlap the window, not the one that ends where the window starts. *)
Example scenario_predicate :
  compile_conds Demo.env Demo.scenario_rq Demo.defaults
  = inr [ CAtom (AEq "network" "UW"); CAtom (ALike "station" "RCM%");
          CAtom (ALike "location" "%"); CAtom (ALike "channel" "_HZ");
          CGt "endtime" "2020-01-01T00:00:00.000000Z";
          CLt "starttime" "2020-01-01T00:01:00.000000Z" ].
Proof. reflexivity. Qed.

Example scenario_selection :
  let conds := (field_conds Demo.scenario_rq
                ++ time_conds Demo.env Demo.scenario_rq)%list in
  selects conds Demo.early = true
  /\ selects conds Demo.late = true
  /\ selects conds Demo.touching = false.
Proof. vm_compute. repeat split. Qed.

Example pick_phase_upper :
  PickClient.filters Demo.env [("phase", VStr "p")] (None, [])
  = inr (Some "phase = 'P'", ["phase = 'P'"]).
Proof. reflexivity. Qed.

Example pick_statement :
  PickClient.query Demo.env "picks_uw" Demo.cached (KList ["station"; "phase"]) true
    [("station", VStr "RC?"); ("mintime", VUTC 0)]
  = ([ Print "SELECT station, phase FROM picks_uw  WHERE station LIKE 'RC_' AND timestamp >= 1577836800.0;";
       Execute "SELECT station, phase FROM picks_uw  WHERE station LIKE 'RC_' AND timestamp >= 1577836800.0;" ],
     inr {| df_data := []; df_columns := ["station"; "phase"] |}).
Proof. reflexivity. Qed.

Example retrieval_of_two_records :
  get_waveforms Demo.env Demo.exact_rq Demo.defaults
  = ([ Execute (query_str
                  [ "network = 'UW'"; "station = 'SEA'"; "location = ''";
                    "channel = 'HHZ'";
                    "endtime>" ++ dq ++ "2020-01-01T00:00:00.000000Z" ++ dq;
                    "starttime<" ++ dq ++ "2020-01-01T00:01:00.000000Z" ++ dq ]);
       OpenRead "good.mseed"; OpenRead "good.mseed" ],
     inr [Demo.tr1; Demo.tr2]).
Proof. reflexivity. Qed.

(** ** Strings *)

Lemma contains_false_replace (a b : ascii) (s : string) :
  PyStr.contains a s = false -> PyStr.replace a b s = s.
Proof.
  induction s as [|c s IH]; simpl; intro H.
  - reflexivity.
  - apply orb_false_iff in H. destruct H as [Hc Hs].
    rewrite Hc, (IH Hs). reflexivity.
Qed.

Lemma wildcard_mapper_replace (c : string) :
  wildcard_mapper c = PyStr.replace "?" "_" (PyStr.replace "*" "%" c).
Proof.
  unfold wildcard_mapper.
  destruct (PyStr.contains "*" c) eqn:Hstar.
  - destruct (PyStr.contains "?" (PyStr.replace "*" "%" c)) eqn:Hq.
    + reflexivity.
    + symmetry. apply contains_false_replace. exact Hq.
  - rewrite (contains_false_replace _ _ _ Hstar).
    destruct (PyStr.contains "?" c) eqn:Hq.
    + reflexivity.
    + symmetry. apply contains_false_replace. exact Hq.
Qed.

Lemma length_replace (a b : ascii) (s : string) :
  String.length (PyStr.replace a b s) = String.length s.
Proof.
  induction s as [|c s IH]; simpl; [reflexivity | now rewrite IH].
Qed.

Lemma get_replace (a b : ascii) (s : string) (n : nat) :
  String.get n (PyStr.replace a b s)
  = option_map (fun c => if Ascii.eqb c a then b else c) (String.get n s).
Proof.
  revert n. induction s as [|c s IH]; intros [|n]; simpl; auto.
Qed.

Lemma wildcard_char_two_steps (c : ascii) :
  (let c1 := if Ascii.eqb c "*" then "%"%char else c in
   if Ascii.eqb c1 "?" then "_"%char else c1) = wildcard_char c.
Proof.
  unfold wildcard_char. cbv zeta.
  destruct (Ascii.eqb c "*") eqn:H; reflexivity.
Qed.

Lemma contains_replace_other (x a b : ascii) (s : string) :
  Ascii.eqb a x = false -> Ascii.eqb b x = false ->
  PyStr.contains x (PyStr.replace a b s) = PyStr.contains x s.
Proof.
  intros Ha Hb. induction s as [|c s IH]; simpl; [reflexivity|].
  rewrite IH. f_equal.
  destruct (Ascii.eqb c a) eqn:Hc.
  - apply Ascii.eqb_eq in Hc. subst c. now rewrite Ha, Hb.
  - reflexivity.
Qed.

Lemma contains_comma_wildcard_mapper (v : string) :
  PyStr.contains "," (wildcard_mapper v) = PyStr.contains "," v.
Proof.
  rewrite wildcard_mapper_replace.
  rewrite !contains_replace_other; reflexivity.
Qed.

Lemma count_comma_wildcard_mapper (v : string) :
  PyStr.count "," (wildcard_mapper v) = PyStr.count "," v.
Proof.
  rewrite wildcard_mapper_replace.
  induction v as [|c v IH]; simpl; [reflexivity|].
  rewrite IH. f_equal.
  destruct (Ascii.eqb c "*") eqn:H1.
  - apply Ascii.eqb_eq in H1. subst c. reflexivity.
  - destruct (Ascii.eqb c "?") eqn:H2.
    + apply Ascii.eqb_eq in H2. subst c. reflexivity.
    + reflexivity.
Qed.

Lemma wildcard_mapper_no_wild (v : string) :
  PyStr.contains "?" v || PyStr.contains "*" v = false ->
  wildcard_mapper v = v.
Proof.
  intro H. apply orb_false_iff in H. destruct H as [Hq Hs].
  rewrite wildcard_mapper_replace.
  rewrite (contains_false_replace _ _ _ Hs).
  apply contains_false_replace. exact Hq.
Qed.

Lemma split_not_nil (sep : ascii) (s : string) : PyStr.split sep s <> [].
Proof.
  destruct s as [|c s]; simpl; [discriminate|].
  destruct (Ascii.eqb c sep); [discriminate|].
  destruct (PyStr.split sep s); discriminate.
Qed.

Lemma length_split (sep : ascii) (s : string) :
  List.length (PyStr.split sep s) = S (PyStr.count sep s).
Proof.
  induction s as [|c s IH]; simpl; [reflexivity|].
  destruct (Ascii.eqb c sep); simpl.
  - now rewrite IH.
  - destruct (PyStr.split sep s) eqn:Hs; simpl in *; [discriminate | exact IH].
Qed.

(** Splitting loses nothing: joining the elements with the separator gives
    the value back. *)
Lemma join_split (sep : ascii) (s : string) :
  PyStr.join (String sep EmptyString) (PyStr.split sep s) = s.
Proof.
  unfold PyStr.join.
  induction s as [|c s IH]; simpl; [reflexivity|].
  destruct (Ascii.eqb c sep) eqn:Hc.
  - apply Ascii.eqb_eq in Hc. subst c.
    pose proof (split_not_nil sep s) as Hn.
    destruct (PyStr.split sep s) as [|w ws] eqn:Hs; [contradiction|].
    simpl. f_equal. exact IH.
  - pose proof (split_not_nil sep s) as Hn.
    destruct (PyStr.split sep s) as [|w ws] eqn:Hs; [contradiction|].
    destruct ws as [|w' ws]; simpl in *; f_equal; exact IH.
Qed.

(** No element of a split holds the separator. *)
Lemma split_elements_free (sep : ascii) (s : string) :
  Forall (fun w => PyStr.contains sep w = false) (PyStr.split sep s).
Proof.
  induction s as [|c s IH]; simpl.
  - constructor; [reflexivity | constructor].
  - destruct (Ascii.eqb c sep) eqn:Hc.
    + constructor; [reflexivity | exact IH].
    + destruct (PyStr.split sep s) as [|w ws].
      * constructor; [simpl; now rewrite Hc | constructor].
      * inversion IH as [|? ? Hw Hws]; subst.
        constructor; [simpl; now rewrite Hc, Hw | exact Hws].
Qed.


(** ** The tree renders to the strings the source builds *)

Lemma render_elem (k w : string) : render_atom (elem_atom k w) = elem_q k w.
Proof.
  unfold elem_atom, elem_q.
  destruct (PyStr.contains "%" w || PyStr.contains "_" w); reflexivity.
Qed.

Lemma render_field (k v : string) : render (field_cond k v) = field_q k v.
Proof.
  unfold field_cond, field_q. cbv zeta.
  destruct (PyStr.contains "," _).
  - simpl. rewrite map_map.
    rewrite (map_ext _ _ (render_elem k)). reflexivity.
  - destruct (PyStr.contains "?" v || PyStr.contains "*" v); reflexivity.
Qed.

Lemma render_compile (E : Env) (rq : request) (o : options) :
  compile_qs E rq o
  = match compile_conds E rq o with
    | inr conds => inr (map render conds)
    | inl e => inl e
    end.
Proof.
  unfold compile_qs, compile_conds.
  destruct (is_time (starttime rq)); [|reflexivity].
  destruct (is_time (endtime rq)); [|reflexivity].
  unfold field_conds, time_conds, quality_conds, fields. simpl.
  rewrite !render_field.
  destruct (quality o); reflexivity.
Qed.

(** ** Wildcard translation *)

(** C5. For every input string, [wildcard_mapper] keeps the length and
    translates the string character by character: at every position an
    asterisk becomes the percent sign, a question mark becomes the
    underscore, and any other character is left as it is. *)
Theorem wildcard_mapper_translates (c : string) :
  String.length (wildcard_mapper c) = String.length c
  /\ (forall n, String.get n (wildcard_mapper c)
                = option_map wildcard_char (String.get n c))
  /\ wildcard_char "*" = "%"%char
  /\ wildcard_char "?" = "_"%char
  /\ (forall a, a <> "*"%char -> a <> "?"%char -> wildcard_char a = a).
Proof.
  rewrite wildcard_mapper_replace. repeat split.
  - now rewrite !length_replace.
  - intro n. rewrite !get_replace.
    destruct (String.get n c) as [a|]; simpl; [|reflexivity].
    f_equal. apply wildcard_char_two_steps.
  - intros a Hs Hq. unfold wildcard_char.
    destruct (Ascii.eqb_spec a "*"); [contradiction|].
    destruct (Ascii.eqb_spec a "?"); [contradiction|]. reflexivity.
Qed.

(** ** The waveform predicate *)

Lemma compile_conds_shape (E : Env) (rq : request) (o : options) (conds : list cond) :
  compile_conds E rq o = inr conds ->
  conds = (field_conds rq ++ time_conds E rq ++ quality_conds o)%list.
Proof.
  unfold compile_conds.
  destruct (is_time (starttime rq)); [|discriminate].
  destruct (is_time (endtime rq)); [|discriminate].
  intro H. now inversion H.
Qed.

Lemma compile_conds_total (E : Env) (rq : request) (o : options) :
  is_time (starttime rq) = true -> is_time (endtime rq) = true ->
  compile_conds E rq o
  = inr (field_conds rq ++ time_conds E rq ++ quality_conds o)%list.
Proof.
  intros Hs He. unfold compile_conds. now rewrite Hs, He.
Qed.

Lemma field_cond_comma (k v : string) :
  PyStr.contains "," v = true ->
  field_cond k v = COr (map (elem_atom k) (PyStr.split "," (wildcard_mapper v))).
Proof.
  intro Hc. unfold field_cond. cbv zeta.
  destruct (PyStr.contains "?" v || PyStr.contains "*" v) eqn:Hw; cbv beta iota.
  - now rewrite contains_comma_wildcard_mapper, Hc.
  - rewrite Hc. now rewrite (wildcard_mapper_no_wild v Hw).
Qed.

Lemma field_cond_exact (k v : string) :
  exact_identifier v = true -> field_cond k v = CAtom (AEq k v).
Proof.
  unfold exact_identifier. intro H.
  apply andb_true_iff in H. destruct H as [H Hc].
  apply andb_true_iff in H. destruct H as [Hs Hq].
  apply negb_true_iff in Hc, Hs, Hq.
  unfold field_cond. cbv zeta. rewrite Hq, Hs.
  cbv beta iota delta [orb]. now rewrite Hc.
Qed.

(** C6. When a field of [get_waveforms] is given a comma-delimited value,
    the unit compiled for that field is one parenthesized OR group that
    holds exactly one comparison per comma-separated element (as many as
    there are commas, plus one): a LIKE for an element with a wildcard token,
    an equality otherwise. The group is one member of the list that is joined
    with AND into the query. *)
Theorem comma_list_is_one_or_group (E : Env) (rq : request) (o : options)
    (k v : string) (conds : list cond) :
  In (k, v) (fields rq) ->
  PyStr.contains "," v = true ->
  compile_conds E rq o = inr conds ->
  let elems := PyStr.split "," (wildcard_mapper v) in
  List.length elems = S (PyStr.count "," v)
  /\ PyStr.join "," elems = wildcard_mapper v
  /\ In (COr (map (elem_atom k) elems)) conds
  /\ List.length (map (elem_atom k) elems) = List.length elems
  /\ (forall w, In w elems ->
        elem_atom k w
        = if PyStr.contains "%" w || PyStr.contains "_" w
          then ALike k w else AEq k w)
  /\ render (COr (map (elem_atom k) elems))
     = "(" ++ PyStr.join " OR " (map (elem_q k) elems) ++ ")"
  /\ compile_qs E rq o = inr (map render conds)
  /\ query_str (map render conds)
     = select_prefix ++ PyStr.join " AND " (map render conds).
Proof.
  intros Hin Hc Hcomp elems. subst elems.
  repeat split.
  - now rewrite length_split, count_comma_wildcard_mapper.
  - apply (join_split ","%char).
  - rewrite (compile_conds_shape E rq o conds Hcomp).
    apply in_or_app. left. unfold field_conds.
    rewrite <- (field_cond_comma k v Hc).
    change (field_cond k v)
      with ((fun kv => field_cond (fst kv) (snd kv)) (k, v)).
    apply in_map. exact Hin.
  - apply length_map.
  - simpl. rewrite map_map.
    now rewrite (map_ext _ _ (render_elem k)).
  - rewrite render_compile. now rewrite Hcomp.
Qed.


(** ** Retrieval *)

(** C4. When [starttime > endtime] holds, [get_waveforms] raises the
    invalid-range error with an empty log: no statement was sent to the
    database and no file was opened. *)
Theorem start_after_end_fails_before_io (E : Env) (rq : request) (o : options) :
  py_gt E (starttime rq) (endtime rq) = inr true ->
  get_waveforms E rq o = ([], inl (ValueError "starttime is after endtime"))
  /\ executed (fst (get_waveforms E rq o)) = []
  /\ opened (fst (get_waveforms E rq o)) = [].
Proof.
  intro H.
  assert (Hg : get_waveforms E rq o = ([], inl start_after_end)).
  { unfold get_waveforms. rewrite H. reflexivity. }
  rewrite Hg. repeat split.
Qed.

(** ** Logs *)

Lemma fst_bind {A B} (m : M A) (k : A -> M B) :
  fst (bind m k)
  = (fst m ++ match snd m with inr a => fst (k a) | inl _ => [] end)%list.
Proof.
  destruct m as [t [e|a]]; simpl.
  - now rewrite app_nil_r.
  - destruct (k a); reflexivity.
Qed.

Lemma snd_bind {A B} (m : M A) (k : A -> M B) :
  snd (bind m k)
  = match snd m with inr a => snd (k a) | inl e => inl e end.
Proof.
  destruct m as [t [e|a]]; simpl; [reflexivity|].
  destruct (k a); reflexivity.
Qed.

Lemma bind_assoc {A B C} (m : M A) (k : A -> M B) (h : B -> M C) :
  bind (bind m k) h = bind m (fun a => bind (k a) h).
Proof.
  destruct m as [t [e|a]]; simpl; [reflexivity|].
  destruct (k a) as [t1 [e1|b]]; simpl; [reflexivity|].
  destruct (h b) as [t2 r2]. now rewrite app_assoc.
Qed.

Lemma bind_ret_l {A B} (a : A) (k : A -> M B) : bind (ret a) k = k a.
Proof. unfold ret, bind. destruct (k a); reflexivity. Qed.

Lemma failures_app (t1 t2 : list event) :
  failures (t1 ++ t2) = (failures t1 ++ failures t2)%list.
Proof.
  induction t1 as [|ev t1 IH]; simpl; [reflexivity|].
  destruct ev as [| | |w| |]; try exact IH.
  destruct w; simpl; try exact IH. now rewrite IH.
Qed.

Lemma executed_app (t1 t2 : list event) :
  executed (t1 ++ t2) = (executed t1 ++ executed t2)%list.
Proof.
  induction t1 as [|ev t1 IH]; simpl; [reflexivity|].
  destruct ev; simpl; try exact IH. now rewrite IH.
Qed.

Lemma silent_bind {A B} (m : M A) (k : A -> M B) :
  silent m -> (forall a, silent (k a)) -> silent (bind m k).
Proof.
  unfold silent. intros Hm Hk. rewrite fst_bind, existsb_app, Hm. simpl.
  destruct (snd m); [reflexivity | apply Hk].
Qed.

Lemma silent_read_range (E : Env) (file : string) (offset len : nat) :
  silent (read_range E file offset len).
Proof.
  unfold read_range. apply silent_bind; [reflexivity|]. intros _.
  destruct (file_bytes E file); reflexivity.
Qed.

Lemma silent_breakpoint (E : Env) : silent (breakpoint E).
Proof.
  unfold breakpoint. apply silent_bind; [reflexivity|]. intros _.
  destruct (debugger_resumes E); reflexivity.
Qed.

(** The loop over the index records never warns and never prints, whatever
    the decoder answers. *)
Lemma silent_read_records (E : Env) (s e : pyval)
    (rows : list (nat * nat * string)) (st : list trace) :
  silent (read_records E s e rows st).
Proof.
  revert st. induction rows as [|[[off len] file] rows IH]; intro st; simpl.
  - reflexivity.
  - apply silent_bind; [apply silent_read_range|]. intro buff.
    destruct (obspy_read E buff s e).
    + apply IH.
    + apply silent_bind; [apply silent_breakpoint | intros _; apply IH].
Qed.

(** A record that fails to decode, under a debugger session that is
    resumed: the loop goes on as if the record were not in the index, and
    the log shows the file opened and the debugger entered, nothing else. *)
Lemma read_records_skips_undecoded (E : Env) (s e : pyval) (off len : nat)
    (file : string) (content : list Byte.byte)
    (rows : list (nat * nat * string)) (st : list trace) :
  file_bytes E file = Some content ->
  obspy_read E (firstn len (skipn off content)) s e = None ->
  debugger_resumes E = true ->
  read_records E s e ((off, len, file) :: rows) st
  = ((OpenRead file :: Breakpoint :: fst (read_records E s e rows st))%list,
     snd (read_records E s e rows st)).
Proof.
  intros Hf Hd Hr. simpl. unfold read_range, breakpoint.
  rewrite Hf, Hr. simpl. rewrite Hd. simpl.
  destruct (read_records E s e rows st); reflexivity.
Qed.

(** The same record under a debugger session that is quit: the retrieval
    ends there with [BdbQuit]. *)
Lemma read_records_quits_on_undecoded (E : Env) (s e : pyval) (off len : nat)
    (file : string) (content : list Byte.byte)
    (rows : list (nat * nat * string)) (st : list trace) :
  file_bytes E file = Some content ->
  obspy_read E (firstn len (skipn off content)) s e = None ->
  debugger_resumes E = false ->
  read_records E s e ((off, len, file) :: rows) st
  = ([OpenRead file; Breakpoint], inl BdbQuit).
Proof.
  intros Hf Hd Hr. simpl. unfold read_range, breakpoint.
  rewrite Hf, Hr. simpl. rewrite Hd. reflexivity.
Qed.

(** C2. On the index of the concrete environment, whose first record for
    station RCM does not decode, [get_waveforms] with a resumed debugger
    returns the second record's trace alone and its log holds no warning and
    no printed line, only the debugger entry; with a debugger that is quit
    the call ends with [BdbQuit] and the second file is never opened. *)
Theorem decode_failure_is_not_reported :
  let run := get_waveforms Demo.env Demo.undecoded_rq Demo.defaults in
  let quit := get_waveforms Demo.env_quit Demo.undecoded_rq Demo.defaults in
  Demo.decode (firstn 2 (skipn 0 Demo.bad)) (VUTC 0) (VUTC 60) = None
  /\ snd run = inr [Demo.tr2]
  /\ opened (fst run) = ["bad.mseed"; "good.mseed"]
  /\ warnings (fst run) = []
  /\ existsb reports (fst run) = false
  /\ In Breakpoint (fst run)
  /\ snd quit = inl BdbQuit
  /\ opened (fst quit) = ["bad.mseed"]
  /\ existsb reports (fst quit) = false.
Proof.
  vm_compute. repeat split. right. right. left. reflexivity.
Qed.

(** ** Bulk retrieval *)

Lemma no_failures_bind {A B} (m : M A) (k : A -> M B) :
  failures (fst m) = [] -> (forall a, failures (fst (k a)) = []) ->
  failures (fst (bind m k)) = [].
Proof.
  intros Hm Hk. rewrite fst_bind, failures_app, Hm. simpl.
  destruct (snd m); [reflexivity | apply Hk].
Qed.

Lemma no_failures_read_records (E : Env) (s e : pyval)
    (rows : list (nat * nat * string)) (st : list trace) :
  failures (fst (read_records E s e rows st)) = [].
Proof.
  revert st. induction rows as [|[[off len] file] rows IH]; intro st; simpl.
  - reflexivity.
  - apply no_failures_bind.
    + unfold read_range. apply no_failures_bind; [reflexivity|]. intros _.
      destruct (file_bytes E file); reflexivity.
    + intro buff. destruct (obspy_read E buff s e); [apply IH|].
      apply no_failures_bind; [|intros _; apply IH].
      unfold breakpoint. apply no_failures_bind; [reflexivity|]. intros _.
      destruct (debugger_resumes E); reflexivity.
Qed.

(** A single call never logs a failed sub-request: only the bulk loop does. *)
Lemma no_failures_get_waveforms (E : Env) (rq : request) (o : options) :
  failures (fst (get_waveforms E rq o)) = [].
Proof.
  unfold get_waveforms.
  apply no_failures_bind; [reflexivity|]. intros [|]; [reflexivity|].
  apply no_failures_bind; [reflexivity|]. intro qs.
  apply no_failures_bind.
  { unfold execute_index. apply no_failures_bind; [reflexivity|]. intros _.
    destruct (sqlite_rows E _); reflexivity. }
  intro rst. apply no_failures_bind; [apply no_failures_read_records|].
  intro st. apply no_failures_bind.
  { unfold placeholder. destruct (minimumlength o); reflexivity. }
  intros _. apply no_failures_bind.
  { unfold placeholder. destruct (longestonly o); reflexivity. }
  intros _. apply no_failures_bind.
  { unfold attach. destruct (attach_response o); [|reflexivity].
    destruct (inventory o) as [[|]|]; reflexivity. }
  intro st'. apply no_failures_bind; [|reflexivity].
  unfold save. destruct (filename o); [|reflexivity].
  apply no_failures_bind; [reflexivity|]. intros _.
  destruct (stream_write E _ _); reflexivity.
Qed.

(** The loop always runs to the end of the list: it returns every
    successful sub-result, in order, and logs one failure per failing item. *)
Lemma bulk_loop_best_effort (E : Env) (o : options) (items : list request)
    (st : list trace) :
  snd (bulk_loop E items o st)
  = inr (st ++ concat (map (delivered E o) items))%list
  /\ failures (fst (bulk_loop E items o st)) = flat_map (failure_of E o) items.
Proof.
  revert st. induction items as [|b rest IH]; intro st; simpl.
  - now rewrite app_nil_r.
  - unfold delivered at 1, failure_of at 1.
    pose proof (no_failures_get_waveforms E b o) as Hq.
    destruct (get_waveforms E b o) as [t [e|s]].
    + destruct (IH st) as [IHs IHf].
      destruct (bulk_loop E rest o st) as [t' r']. simpl in *.
      rewrite failures_app, Hq. simpl.
      now rewrite IHs, IHf.
    + destruct (IH (st ++ s)%list) as [IHs IHf].
      destruct (bulk_loop E rest o (st ++ s)) as [t' r']. simpl in *.
      rewrite failures_app, Hq. simpl.
      now rewrite IHs, IHf, app_assoc.
Qed.

Lemma flat_map_nil {A B} (f : A -> list B) (l : list A) :
  Forall (fun x => f x = []) l -> flat_map f l = [].
Proof.
  induction 1 as [|x l Hx _ IH]; simpl; [reflexivity | now rewrite Hx, IH].
Qed.

(** C9. In a bulk call over a list in which one filter tuple makes its
    [get_waveforms] call fail and every other one succeeds, the call
    returns the streams of the other tuples, concatenated in order, and its
    log holds exactly one failure, the failing tuple with its exception. *)
Theorem bulk_isolates_failing_request (E : Env) (pre post : list request)
    (b : request) (o : options) (e : exn) :
  snd (get_waveforms E b (without_filename o)) = inl e ->
  Forall (fun x => exists s, snd (get_waveforms E x (without_filename o)) = inr s)
         (pre ++ post) ->
  let r := get_waveforms_bulk E (BList (pre ++ b :: post)) o in
  snd r = inr (concat (map (delivered E (without_filename o)) (pre ++ post)))
  /\ failures (fst r) = [(b, e)]
  /\ In (Warn (RequestFailed b e)) (fst r).
Proof.
  intros Hb Hok r. subst r.
  set (o' := without_filename o) in *.
  destruct (bulk_loop_best_effort E o' (pre ++ b :: post) []) as [Hs Hf].
  assert (Hdel : concat (map (delivered E o') (pre ++ b :: post))
                 = concat (map (delivered E o') (pre ++ post))).
  { rewrite !map_app, !concat_app. simpl.
    unfold delivered at 2. now rewrite Hb. }
  assert (Hfail : flat_map (failure_of E o') (pre ++ b :: post) = [(b, e)]).
  { apply Forall_app in Hok. destruct Hok as [Hpre Hpost].
    rewrite flat_map_app. simpl.
    assert (Hnone : forall l,
      Forall (fun x => exists s, snd (get_waveforms E x o') = inr s) l ->
      flat_map (failure_of E o') l = []).
    { intros l Hl. apply flat_map_nil.
      eapply Forall_impl; [|exact Hl]. intros x [s Hx].
      unfold failure_of. now rewrite Hx. }
    rewrite (Hnone pre Hpre), (Hnone post Hpost).
    unfold failure_of. now rewrite Hb. }
  assert (Hsave : forall st, failures (fst (bulk_save E (filename o) st)) = []).
  { intro st. unfold bulk_save. destruct (filename o) as [f|]; [|reflexivity].
    destruct (String.eqb f EmptyString); [reflexivity|].
    apply no_failures_bind; [reflexivity|]. intros _.
    destruct (stream_write E f st); reflexivity. }
  assert (Hsnd_save : forall st, snd (bulk_save E (filename o) st) = inr tt).
  { intro st. unfold bulk_save. destruct (filename o) as [f|]; [|reflexivity].
    destruct (String.eqb f EmptyString); [reflexivity|].
    rewrite snd_bind. simpl. destruct (stream_write E f st); reflexivity. }
  assert (Hfst : failures (fst (get_waveforms_bulk E (BList (pre ++ b :: post)) o))
                 = [(b, e)]).
  { unfold get_waveforms_bulk. fold o'.
    rewrite fst_bind, failures_app, Hf, Hfail, Hs.
    rewrite fst_bind, failures_app, Hsave, Hsnd_save. reflexivity. }
  split; [|split].
  - unfold get_waveforms_bulk. fold o'.
    rewrite snd_bind, Hs. rewrite snd_bind, Hsnd_save. simpl.
    now rewrite Hdel.
  - exact Hfst.
  - clear -Hfst.
    induction (fst (get_waveforms_bulk E (BList (pre ++ b :: post)) o))
      as [|ev t IH]; simpl in *; [discriminate|].
    destruct ev as [| | |w| |]; try (right; now apply IH).
    destruct w as [b' e'| |]; try (right; now apply IH).
    inversion Hfst; subst. now left.
Qed.

(** ** The catalog builders *)

Lemma bind_ext {A B} (m : M A) (k k' : A -> M B) :
  (forall a, k a = k' a) -> bind m k = bind m k'.
Proof.
  intro H. destruct m as [t [e|a]]; simpl; [reflexivity | now rewrite H].
Qed.

Lemma executed_ensure_keys (E : Env) (table : string)
    (self_keys : option (list string)) (sql : string) :
  In sql (executed (fst (ensure_keys E table self_keys))) ->
  sql = show_columns table.
Proof.
  unfold ensure_keys, execute_mysql. destruct self_keys as [ks|]; simpl.
  - intros [].
  - destruct (mysql_rows E (show_columns table)) as [rows|]; simpl.
    + intros [H|[]]. now symmetry.
    + intros [H|[]]. now symmetry.
Qed.

(** The column names are looked up once: with [self._keys] set, nothing is
    sent, and after a successful lookup it is set. *)
Lemma ensure_keys_cached (E : Env) (table : string) (self_keys : option (list string))
    (ks : list string) :
  snd (ensure_keys E table self_keys) = inr ks ->
  keys_after E table self_keys = Some ks
  /\ ensure_keys E table (keys_after E table self_keys) = ([], inr ks).
Proof.
  intro H. unfold keys_after. rewrite H. split; reflexivity.
Qed.

Lemma executed_bind_raise {A B} (m : M A) (e : exn) :
  executed (fst (bind m (fun _ => raise e : M B))) = executed (fst m).
Proof.
  rewrite fst_bind. destruct (snd m); simpl; now rewrite app_nil_r.
Qed.

Lemma pick_filters_app (E : Env) (l1 l2 : list (string * pyval))
    (st : option string * list string) :
  PickClient.filters E (l1 ++ l2) st
  = match PickClient.filters E l1 st with
    | inr st' => PickClient.filters E l2 st'
    | inl e => inl e
    end.
Proof.
  revert st. induction l1 as [|[k i] l1 IH]; intro st; simpl; [reflexivity|].
  destruct (PickClient.step E k i st); [reflexivity | apply IH].
Qed.

(** When the loop raises, [query] raises the same exception right after
    the column names were looked up: nothing is printed and no SELECT is
    sent. *)
Lemma pick_query_raises (E : Env) (table : string)
    (self_keys : option (list string)) (keys : keys_arg) (showquery : bool)
    (kwargs : list (string * pyval)) (e : exn) :
  PickClient.filters E kwargs (None, []) = inl e ->
  PickClient.query E table self_keys keys showquery kwargs
  = bind (ensure_keys E table self_keys) (fun _ => raise e).
Proof.
  intro H. unfold PickClient.query. rewrite H. reflexivity.
Qed.

Lemma pick_step_invariant (E : Env) (k : string) (i : pyval)
    (st st' : option string * list string) :
  q_invariant st -> PickClient.step E k i st = inr st' -> q_invariant st'.
Proof.
  destruct st as [q qs]. unfold PickClient.step, q_invariant.
  intros Hinv H. destruct i as [s|t|r].
  - destruct (PyStr.contains "_" s || PyStr.contains "%" s || PyStr.contains "-" s);
      [discriminate|].
    destruct (PyStr.mem k PickClient.text_keys).
    + inversion H; subst. simpl. now eexists.
    + destruct (String.eqb k "phase"); [|discriminate].
      inversion H; subst. simpl. now eexists.
  - destruct (String.eqb k "mintime").
    + inversion H; subst. simpl. now eexists.
    + destruct (String.eqb k "maxtime").
      * inversion H; subst. simpl. now eexists.
      * destruct q as [x|]; [|discriminate].
        inversion H; subst. simpl. now eexists.
  - discriminate.
Qed.

Lemma pick_filters_invariant (E : Env) (kwargs : list (string * pyval))
    (st st' : option string * list string) :
  q_invariant st -> PickClient.filters E kwargs st = inr st' -> q_invariant st'.
Proof.
  revert st. induction kwargs as [|[k i] rest IH]; intros st Hinv H; simpl in H.
  - now inversion H; subst.
  - destruct (PickClient.step E k i st) as [e|st1] eqn:Hstep; [discriminate|].
    apply (IH st1); [|exact H].
    exact (pick_step_invariant E k i st st1 Hinv Hstep).
Qed.

(** C10. In [PickClient.query], a keyword argument whose value is a
    [UTCDateTime] and whose key is neither [mintime] nor [maxtime] appends
    the local [_q] without assigning it. When the earlier arguments left it
    unbound (none of them appended a predicate) the call raises
    [UnboundLocalError]; otherwise [_q] still holds the predicate appended
    last, and that predicate is appended once more while the loop goes on
    with the remaining arguments. *)
Theorem pick_time_value_under_other_key (E : Env) (table : string)
    (self_keys : option (list string)) (keys : keys_arg) (showquery : bool)
    (pre post : list (string * pyval)) (k : string) (t : Z)
    (q : option string) (qs : list string) :
  String.eqb k "mintime" = false ->
  String.eqb k "maxtime" = false ->
  PickClient.filters E pre (None, []) = inr (q, qs) ->
  match q with
  | None =>
      qs = []
      /\ PickClient.query E table self_keys keys showquery
           (pre ++ (k, VUTC t) :: post)
         = bind (ensure_keys E table self_keys)
                (fun _ => raise (UnboundLocalError "_q"))
  | Some x =>
      (exists qs', qs = (qs' ++ [x])%list)
      /\ PickClient.step E k (VUTC t) (q, qs) = inr (Some x, (qs ++ [x])%list)
      /\ PickClient.filters E (pre ++ (k, VUTC t) :: post) (None, [])
         = PickClient.filters E post (Some x, (qs ++ [x])%list)
  end.
Proof.
  intros Hmin Hmax Hpre.
  assert (Hinv : q_invariant (q, qs)).
  { apply (pick_filters_invariant E pre (None, [])); [reflexivity | exact Hpre]. }
  unfold q_invariant in Hinv. simpl in Hinv.
  destruct q as [x|].
  - split; [exact Hinv|]. split.
    + unfold PickClient.step. now rewrite Hmin, Hmax.
    + rewrite pick_filters_app, Hpre. simpl. now rewrite Hmin, Hmax.
  - split; [exact Hinv|].
    apply pick_query_raises.
    rewrite pick_filters_app, Hpre. simpl. now rewrite Hmin, Hmax.
Qed.

Lemma quake_filter_unknown (E : Env) (k : string) (v : pyval) :
  PyStr.mem k QuakeClient.known_keys = false ->
  QuakeClient.filter E k v = ([QuakeClient.not_implemented k], inr []).
Proof.
  unfold PyStr.mem, QuakeClient.known_keys. simpl. intro H.
  repeat (apply orb_false_iff in H; destruct H as [? H]).
  unfold QuakeClient.filter, PyStr.mem. simpl.
  repeat match goal with
         | Heq : String.eqb k _ = false |- _ => rewrite Heq; clear Heq
         end.
  reflexivity.
Qed.

Lemma quake_filters_app (E : Env) (l1 l2 : list (string * pyval)) (qs : list string) :
  QuakeClient.filters E (l1 ++ l2) qs
  = bind (QuakeClient.filters E l1 qs) (QuakeClient.filters E l2).
Proof.
  revert qs. induction l1 as [|[k i] l1 IH]; intro qs.
  - symmetry. apply (bind_ret_l qs (QuakeClient.filters E l2)).
  - change (QuakeClient.filters E (((k, i) :: l1) ++ l2) qs)
      with (bind (QuakeClient.filter E k i)
              (fun q => QuakeClient.filters E (l1 ++ l2) (qs ++ q)%list)).
    change (QuakeClient.filters E ((k, i) :: l1) qs)
      with (bind (QuakeClient.filter E k i)
              (fun q => QuakeClient.filters E l1 (qs ++ q)%list)).
    rewrite bind_assoc. apply bind_ext. intro q. apply IH.
Qed.

Lemma quake_filters_skip (E : Env) (pre post : list (string * pyval))
    (k : string) (v : pyval) (t1 t2 : list event) (qs1 : list string)
    (r : exn + list string) :
  PyStr.mem k QuakeClient.known_keys = false ->
  QuakeClient.filters E pre [] = (t1, inr qs1) ->
  QuakeClient.filters E post qs1 = (t2, r) ->
  QuakeClient.filters E (pre ++ post) [] = ((t1 ++ t2)%list, r)
  /\ QuakeClient.filters E (pre ++ (k, v) :: post) []
     = ((t1 ++ QuakeClient.not_implemented k :: t2)%list, r).
Proof.
  intros Hk H1 H2. rewrite !quake_filters_app, H1. simpl.
  rewrite (quake_filter_unknown E k v Hk). simpl.
  rewrite app_nil_r, H2. split; reflexivity.
Qed.

Lemma quake_query_unknown_key (E : Env) (self_keys : option (list string))
    (keys : keys_arg) (showquery : bool) (pre post : list (string * pyval))
    (k : string) (v : pyval) (t : list event) (df : dataframe) :
  PyStr.mem k QuakeClient.known_keys = false ->
  QuakeClient.query E self_keys keys showquery (pre ++ post) = (t, inr df) ->
  exists t',
    QuakeClient.query E self_keys keys showquery (pre ++ (k, v) :: post)
    = (t', inr df)
    /\ executed t' = executed t
    /\ In (QuakeClient.not_implemented k) t'.
Proof.
  intros Hk Hq. unfold QuakeClient.query in *.
  destruct (ensure_keys E QuakeClient.table self_keys) as [t0 [e0|ks]];
    [simpl in Hq; discriminate|].
  destruct (QuakeClient.filters E pre []) as [t1 [e1|qs1]] eqn:H1.
  { rewrite quake_filters_app, H1 in Hq. simpl in Hq. discriminate. }
  destruct (QuakeClient.filters E post qs1) as [t2 r2] eqn:H2.
  destruct (quake_filters_skip E pre post k v t1 t2 qs1 r2 Hk H1 H2) as [Ha Hb].
  rewrite Ha in Hq. rewrite Hb.
  destruct r2 as [e2|qs2]; [simpl in Hq; discriminate|].
  simpl in *.
  destruct (bind (show showquery (QuakeClient.statement keys qs2))
              (fun _ => run_select E (QuakeClient.statement keys qs2)
                          (query_key keys) ks keys)) as [t3 r3].
  inversion Hq; subst. eexists. split; [reflexivity|]. split.
  - rewrite !executed_app. simpl. reflexivity.
  - apply in_or_app. right. apply in_or_app. left.
    apply in_or_app. right. now left.
Qed.

Lemma pick_step_unknown_key (E : Env) (k : string) (v : pyval)
    (st : option string * list string) :
  PyStr.mem k PickClient.known_keys = false ->
  reaches_key_test v = true ->
  PickClient.step E k v st = inl (unsupported_key k (py_str E v)).
Proof.
  unfold PyStr.mem, PickClient.known_keys, PickClient.text_keys. simpl.
  intros H Hv.
  repeat (apply orb_false_iff in H; destruct H as [? H]).
  destruct st as [q qs]. unfold PickClient.step.
  destruct v as [s|t|r]; simpl in *; [|discriminate|reflexivity].
  unfold passes_guard in Hv. apply negb_true_iff in Hv. rewrite Hv.
  unfold PyStr.mem, PickClient.text_keys. simpl.
  repeat match goal with
         | Heq : String.eqb k _ = false |- _ => rewrite Heq; clear Heq
         end.
  reflexivity.
Qed.

(** C8 (as the code has it). A key outside the catalog builder's table is
    reported with a printed line and skipped: when the query over the
    remaining filters goes through, the query with the unknown key goes
    through too, sends the same statements and returns the same table. In
    the pick builder a key outside its table, reached after the earlier
    filters were accepted, with a string value free of underscore, percent
    and hyphen or with a value that is neither a string nor a timestamp,
    raises the error naming the key; the only statement that can have been
    sent by then is the lookup of the column names, never the SELECT. *)
Theorem unknown_key_catalog_skips_pick_raises (E : Env) (table : string)
    (self_keys : option (list string)) (keys : keys_arg) (showquery : bool)
    (pre post : list (string * pyval)) (k : string) (v : pyval) :
  (PyStr.mem k QuakeClient.known_keys = false ->
   forall t df,
     QuakeClient.query E self_keys keys showquery (pre ++ post) = (t, inr df) ->
     exists t',
       QuakeClient.query E self_keys keys showquery (pre ++ (k, v) :: post)
       = (t', inr df)
       /\ executed t' = executed t
       /\ In (QuakeClient.not_implemented k) t')
  /\ (PyStr.mem k PickClient.known_keys = false ->
      reaches_key_test v = true ->
      forall st, PickClient.filters E pre (None, []) = inr st ->
      let run := PickClient.query E table self_keys keys showquery
                   (pre ++ (k, v) :: post) in
      run = bind (ensure_keys E table self_keys)
                 (fun _ => raise (unsupported_key k (py_str E v)))
      /\ (forall sql, In sql (executed (fst run)) -> sql = show_columns table)
      /\ (forall ks, self_keys = Some ks ->
            run = ([], inl (unsupported_key k (py_str E v))))).
Proof.
  split.
  - intros Hk t df Hq.
    exact (quake_query_unknown_key E self_keys keys showquery pre post k v t df Hk Hq).
  - intros Hk Hv st Hpre run.
    assert (Hrun : run = bind (ensure_keys E table self_keys)
                           (fun _ => raise (unsupported_key k (py_str E v)))).
    { subst run. apply pick_query_raises.
      rewrite pick_filters_app, Hpre. simpl.
      now rewrite (pick_step_unknown_key E k v st Hk Hv). }
    split; [exact Hrun|]. split.
    + intros sql. rewrite Hrun, executed_bind_raise.
      apply executed_ensure_keys.
    + intros ks Hks. rewrite Hrun, Hks. reflexivity.
Qed.

(** ** Raw pattern characters *)

Lemma never_rejects_bind {A B} (m : M A) (k : A -> M B) :
  never_rejects_wildcards m -> (forall a, never_rejects_wildcards (k a)) ->
  never_rejects_wildcards (bind m k).
Proof.
  unfold never_rejects_wildcards. intros Hm Hk. rewrite snd_bind.
  destruct (snd m) as [e|a]; [|apply Hk].
  intro H. apply Hm. inversion H. reflexivity.
Qed.

Lemma never_rejects_ok {A} (t : list event) (a : A) :
  never_rejects_wildcards (t, inr a).
Proof. unfold never_rejects_wildcards. simpl. discriminate. Qed.

Lemma never_rejects_execute_mysql (E : Env) (sql : string) :
  never_rejects_wildcards (execute_mysql E sql).
Proof.
  unfold execute_mysql. apply never_rejects_bind; [apply never_rejects_ok|].
  intros _. destruct (mysql_rows E sql); [apply never_rejects_ok|].
  unfold never_rejects_wildcards. simpl. discriminate.
Qed.

Lemma first_fields_error (rows : list (list string)) (e : exn) :
  first_fields rows = inl e -> e = IndexError.
Proof.
  induction rows as [|row rows IH]; simpl; [discriminate|].
  destruct row as [|x row]; [intro H; now inversion H|].
  destruct (first_fields rows) as [e'|l]; [|discriminate].
  intro H. inversion H; subst. now apply IH.
Qed.

Lemma never_rejects_ensure_keys (E : Env) (table : string)
    (self_keys : option (list string)) :
  never_rejects_wildcards (ensure_keys E table self_keys).
Proof.
  unfold ensure_keys. destruct self_keys; [apply never_rejects_ok|].
  apply never_rejects_bind; [apply never_rejects_execute_mysql|].
  intro rows. unfold never_rejects_wildcards, lift. simpl.
  destruct (first_fields rows) as [e|l] eqn:H; [|discriminate].
  rewrite (first_fields_error rows e H). discriminate.
Qed.

Lemma never_rejects_quake_filter (E : Env) (k : string) (i : pyval) :
  never_rejects_wildcards (QuakeClient.filter E k i).
Proof.
  assert (Ht : forall op, never_rejects_wildcards (QuakeClient.time_bound E op i)).
  { intro op. unfold QuakeClient.time_bound.
    destruct i; try apply never_rejects_ok;
      (destruct (utc_parse E _); [apply never_rejects_ok|]);
      unfold never_rejects_wildcards; simpl; discriminate. }
  unfold QuakeClient.filter.
  repeat match goal with
         | |- never_rejects_wildcards (if ?c then _ else _) => destruct c
         end;
    try apply Ht; try apply never_rejects_ok.
Qed.

Lemma never_rejects_quake_filters (E : Env) (kwargs : list (string * pyval))
    (qs : list string) :
  never_rejects_wildcards (QuakeClient.filters E kwargs qs).
Proof.
  revert qs. induction kwargs as [|[k i] rest IH]; intro qs; simpl.
  - apply never_rejects_ok.
  - apply never_rejects_bind; [apply never_rejects_quake_filter|].
    intro q. apply IH.
Qed.

(** The catalog builder has no wildcard guard: whatever the filters are,
    its [query] never ends with the unsupported-wildcard error. *)
Lemma never_rejects_quake_query (E : Env) (self_keys : option (list string))
    (keys : keys_arg) (showquery : bool) (kwargs : list (string * pyval)) :
  never_rejects_wildcards (QuakeClient.query E self_keys keys showquery kwargs).
Proof.
  unfold QuakeClient.query.
  apply never_rejects_bind; [apply never_rejects_ensure_keys|]. intro ks.
  apply never_rejects_bind; [apply never_rejects_quake_filters|]. intro qs.
  apply never_rejects_bind.
  { unfold show. destruct showquery; apply never_rejects_ok. }
  intros _. unfold run_select.
  apply never_rejects_bind; [apply never_rejects_execute_mysql|].
  intro result. destruct (PyStr.contains "*" _); apply never_rejects_ok.
Qed.

Lemma never_rejects_read_records (E : Env) (s e : pyval)
    (rows : list (nat * nat * string)) (st : list trace) :
  never_rejects_wildcards (read_records E s e rows st).
Proof.
  revert st. induction rows as [|[[off len] file] rows IH]; intro st; simpl.
  - apply never_rejects_ok.
  - apply never_rejects_bind.
    + unfold read_range. apply never_rejects_bind; [apply never_rejects_ok|].
      intros _. destruct (file_bytes E file); [apply never_rejects_ok|].
      unfold never_rejects_wildcards. simpl. discriminate.
    + intro buff. destruct (obspy_read E buff s e); [apply IH|].
      apply never_rejects_bind; [|intros _; apply IH].
      unfold breakpoint. apply never_rejects_bind; [apply never_rejects_ok|].
      intros _. destruct (debugger_resumes E); [apply never_rejects_ok|].
      unfold never_rejects_wildcards. simpl. discriminate.
Qed.

(** Nor has the waveform builder: [get_waveforms] never ends with the
    unsupported-wildcard error, whatever the four field values are. *)
Lemma never_rejects_get_waveforms (E : Env) (rq : request) (o : options) :
  never_rejects_wildcards (get_waveforms E rq o).
Proof.
  unfold get_waveforms. apply never_rejects_bind.
  { unfold never_rejects_wildcards, lift, py_gt. simpl.
    destruct (starttime rq), (endtime rq); try discriminate;
      destruct (mixed_gt E _ _); discriminate. }
  intros [|]; [unfold never_rejects_wildcards; simpl; discriminate|].
  apply never_rejects_bind.
  { unfold never_rejects_wildcards, lift, compile_qs. simpl.
    destruct (is_time (starttime rq)); [|discriminate].
    destruct (is_time (endtime rq)); [|discriminate].
    destruct (quality o); discriminate. }
  intro qs. apply never_rejects_bind.
  { unfold execute_index. apply never_rejects_bind; [apply never_rejects_ok|].
    intros _. destruct (sqlite_rows E _); [apply never_rejects_ok|].
    unfold never_rejects_wildcards. simpl. discriminate. }
  intro rst. apply never_rejects_bind; [apply never_rejects_read_records|].
  intro st. apply never_rejects_bind.
  { unfold placeholder. destruct (minimumlength o); [|apply never_rejects_ok].
    unfold never_rejects_wildcards. simpl. discriminate. }
  intros _. apply never_rejects_bind.
  { unfold placeholder. destruct (longestonly o); [|apply never_rejects_ok].
    unfold never_rejects_wildcards. simpl. discriminate. }
  intros _. apply never_rejects_bind.
  { unfold attach. destruct (attach_response o); [|apply never_rejects_ok].
    destruct (inventory o) as [[|]|]; try apply never_rejects_ok.
    unfold never_rejects_wildcards. simpl. discriminate. }
  intro st'. apply never_rejects_bind; [|intros _; apply never_rejects_ok].
  unfold save. destruct (filename o); [|apply never_rejects_ok].
  apply never_rejects_bind; [apply never_rejects_ok|]. intros _.
  destruct (stream_write E _ _); apply never_rejects_ok.
Qed.

Lemma field_q_unfolded (k v : string) :
  field_q k v
  = if PyStr.contains "," v
    then "(" ++ PyStr.join " OR "
                  (map (elem_q k) (PyStr.split "," (wildcard_mapper v))) ++ ")"
    else if PyStr.contains "?" v || PyStr.contains "*" v
         then k ++ " LIKE '" ++ wildcard_mapper v ++ "'"
         else k ++ " = '" ++ v ++ "'".
Proof.
  unfold field_q. cbv zeta.
  destruct (PyStr.contains "?" v || PyStr.contains "*" v) eqn:Hw; cbv beta iota.
  - now rewrite contains_comma_wildcard_mapper.
  - now rewrite (wildcard_mapper_no_wild v Hw).
Qed.

Lemma wildcard_mapper_keeps (c : ascii) (s : string) (n : nat) :
  wildcard_char c = c ->
  String.get n s = Some c -> String.get n (wildcard_mapper s) = Some c.
Proof.
  intros Hc Hn. rewrite wildcard_mapper_replace, !get_replace, Hn. simpl.
  f_equal. pose proof (wildcard_char_two_steps c) as H. cbv zeta in H.
  rewrite H. exact Hc.
Qed.

(** C1 (as the code has it). For a string filter value that holds an
    underscore or a percent sign: the pick builder's call is rejected, with
    the unsupported-wildcard error when the earlier filters were accepted,
    and the only statement that can have been sent by then is the lookup of
    the column names, never the SELECT; the catalog builder has no such
    rejection and puts the value as it is into its equality; the waveform
    builder has none either and puts the value, with its underscores and
    percent signs where they were, into the compiled comparison. *)
Theorem raw_wildcards_rejected_by_pick_only (E : Env) (table : string)
    (self_keys : option (list string)) (keys : keys_arg) (showquery : bool)
    (pre post : list (string * pyval)) (k s : string) :
  PyStr.contains "_" s || PyStr.contains "%" s = true ->
  let run := PickClient.query E table self_keys keys showquery
               (pre ++ (k, VStr s) :: post) in
  (exists e, run = bind (ensure_keys E table self_keys) (fun _ => raise e))
  /\ (forall st, PickClient.filters E pre (None, []) = inr st ->
        run = bind (ensure_keys E table self_keys)
                   (fun _ => raise unsupported_wildcard))
  /\ (forall sql, In sql (executed (fst run)) -> sql = show_columns table)
  /\ (forall kwargs,
        never_rejects_wildcards
          (QuakeClient.query E self_keys keys showquery kwargs))
  /\ QuakeClient.filter E "contributor" (VStr s)
     = ret ["contributor = '" ++ s ++ "'"]
  /\ (forall rq o, never_rejects_wildcards (get_waveforms E rq o))
  /\ (forall f, field_q f s
        = if PyStr.contains "," s
          then "(" ++ PyStr.join " OR "
                 (map (elem_q f) (PyStr.split "," (wildcard_mapper s))) ++ ")"
          else if PyStr.contains "?" s || PyStr.contains "*" s
               then f ++ " LIKE '" ++ wildcard_mapper s ++ "'"
               else f ++ " = '" ++ s ++ "'")
  /\ (forall n c, c = "_"%char \/ c = "%"%char ->
        String.get n s = Some c -> String.get n (wildcard_mapper s) = Some c).
Proof.
  intros Hraw run.
  assert (Hstep : forall st, PickClient.step E k (VStr s) st = inl unsupported_wildcard).
  { intros [q qs]. unfold PickClient.step. now rewrite Hraw. }
  assert (Hfail : exists e,
             PickClient.filters E (pre ++ (k, VStr s) :: post) (None, []) = inl e
             /\ (forall st, PickClient.filters E pre (None, []) = inr st ->
                   e = unsupported_wildcard)).
  { rewrite pick_filters_app.
    destruct (PickClient.filters E pre (None, [])) as [e|st].
    - exists e. split; [reflexivity | discriminate].
    - exists unsupported_wildcard. simpl. rewrite Hstep. split; [reflexivity|].
      reflexivity. }
  destruct Hfail as [e [Hfe Hwild]].
  assert (Hrun : run = bind (ensure_keys E table self_keys) (fun _ => raise e)).
  { subst run. now apply pick_query_raises. }
  split; [now exists e|]. split.
  { intros st Hst. rewrite Hrun. now rewrite (Hwild st Hst). }
  split.
  { intro sql. rewrite Hrun, executed_bind_raise. apply executed_ensure_keys. }
  split; [intro kwargs; apply never_rejects_quake_query|].
  split; [reflexivity|].
  split; [intros rq o; apply never_rejects_get_waveforms|].
  split; [intro f; apply field_q_unfolded|].
  intros n c [Hc|Hc] Hn; subst c; now apply wildcard_mapper_keeps.
Qed.

(** ** Where the code parts from the specification *)

(** C1, as written, fails on the catalog builder: a [contributor] value with
    an underscore, and a [source_id] value with a percent sign, are sent in
    the SELECT as they are. *)
Lemma catalog_builder_accepts_raw_wildcards :
  PyStr.contains "_" "a_b" = true
  /\ PyStr.contains "%" "10%" = true
  /\ QuakeClient.query Demo.env Demo.cached (KStr "*") false
       [("contributor", VStr "a_b"); ("source_id", VStr "10%")]
     = ([Execute "SELECT * FROM catalog  WHERE contributor = 'a_b' and source_id = '10%';"],
        inr {| df_data := []; df_columns := ["source_id"; "timestamp"] |}).
Proof. vm_compute. repeat split. Qed.

(** C8, as written, fails on the pick builder: for the unknown key [foo]
    with the value [a_b], a first call sends the lookup of the column names
    and then raises the unsupported-wildcard error, which does not name the
    key. *)
Lemma pick_unknown_key_error_may_not_name_key :
  PyStr.mem "foo" PickClient.known_keys = false
  /\ PickClient.query Demo.env "picks_uw" None (KStr "*") false [("foo", VStr "a_b")]
     = ([Execute "SHOW COLUMNS FROM picks_uw;"],
        inl (ValueError "Only wildcards ? and * are supported.")).
Proof. vm_compute. split; reflexivity. Qed.

(** ** The properties at concrete inputs *)

Lemma raw_wildcards_witness :
  PickClient.query Demo.env "picks_uw" None (KStr "*") false [("station", VStr "RC_")]
  = ([Execute "SHOW COLUMNS FROM picks_uw;"], inl unsupported_wildcard).
Proof.
  exact (proj1 (proj2
           (raw_wildcards_rejected_by_pick_only Demo.env "picks_uw" None
              (KStr "*") false [] [] "station" "RC_" eq_refl))
           (None, []) eq_refl).
Defined.

Lemma start_after_end_witness :
  get_waveforms Demo.env Demo.reversed_rq Demo.defaults
  = ([], inl (ValueError "starttime is after endtime")).
Proof.
  exact (proj1 (start_after_end_fails_before_io Demo.env Demo.reversed_rq
                  Demo.defaults eq_refl)).
Defined.

Lemma comma_list_witness :
  In (COr [ALike "station" "MBW%"; AEq "station" "JCW"])
     (field_conds Demo.listed_rq ++ time_conds Demo.env Demo.listed_rq
      ++ quality_conds Demo.defaults)%list
  /\ List.length (PyStr.split "," (wildcard_mapper "MBW*,JCW")) = 2.
Proof.
  assert (Hin : In ("station", "MBW*,JCW") (fields Demo.listed_rq)).
  { right. left. reflexivity. }
  pose proof (comma_list_is_one_or_group Demo.env Demo.listed_rq Demo.defaults
                "station" "MBW*,JCW" _ Hin eq_refl eq_refl) as H.
  cbv zeta in H. split.
  - exact (proj1 (proj2 (proj2 H))).
  - exact (proj1 H).
Defined.

Lemma unknown_key_witness :
  (exists t',
     QuakeClient.query Demo.env Demo.cached (KStr "*") false
       [("source_id", VStr "uw123"); ("foo", VStr "x")]
     = (t', inr {| df_data := []; df_columns := ["source_id"; "timestamp"] |})
     /\ executed t' = ["SELECT * FROM catalog  WHERE source_id = 'uw123';"]
     /\ In (Print "query by foo not implement.") t')
  /\ PickClient.query Demo.env "picks_uw" Demo.cached (KStr "*") false
       [("source_id", VStr "uw123"); ("foo", VStr "x")]
     = ([], inl (ValueError "Unsupported query key <foo>: x")).
Proof.
  destruct (unknown_key_catalog_skips_pick_raises Demo.env "picks_uw"
              Demo.cached (KStr "*") false [("source_id", VStr "uw123")] []
              "foo" (VStr "x")) as [Hq Hp].
  split.
  - exact (Hq eq_refl _ _ eq_refl).
  - exact (proj1 (Hp eq_refl eq_refl _ eq_refl)).
Defined.

Lemma bulk_witness :
  snd (get_waveforms_bulk Demo.env
         (BList [Demo.exact_rq; Demo.reversed_rq; Demo.undecoded_rq])
         Demo.defaults)
  = inr [Demo.tr1; Demo.tr2; Demo.tr2]
  /\ failures (fst (get_waveforms_bulk Demo.env
         (BList [Demo.exact_rq; Demo.reversed_rq; Demo.undecoded_rq])
         Demo.defaults))
     = [(Demo.reversed_rq, ValueError "starttime is after endtime")].
Proof.
  assert (Hok : Forall
            (fun x => exists s,
               snd (get_waveforms Demo.env x (without_filename Demo.defaults))
               = inr s)
            ([Demo.exact_rq] ++ [Demo.undecoded_rq])).
  { constructor; [eexists; reflexivity|].
    constructor; [eexists; reflexivity|]. constructor. }
  pose proof (bulk_isolates_failing_request Demo.env [Demo.exact_rq]
                [Demo.undecoded_rq] Demo.reversed_rq Demo.defaults
                (ValueError "starttime is after endtime") eq_refl Hok) as H.
  cbv zeta in H. split.
  - exact (proj1 H).
  - exact (proj1 (proj2 H)).
Defined.

Lemma pick_time_value_witness :
  PickClient.filters Demo.env
    [("station", VStr "RCM"); ("foo", VUTC 60)] (None, [])
  = inr (Some "station = 'RCM'", ["station = 'RCM'"; "station = 'RCM'"])
  /\ PickClient.query Demo.env "picks_uw" None (KStr "*") false [("foo", VUTC 60)]
     = ([Execute "SHOW COLUMNS FROM picks_uw;"], inl (UnboundLocalError "_q")).
Proof.
  split.
  - exact (proj2 (proj2
             (pick_time_value_under_other_key Demo.env "picks_uw" None
                (KStr "*") false [("station", VStr "RCM")] [] "foo" 60
                (Some "station = 'RCM'") ["station = 'RCM'"]
                eq_refl eq_refl eq_refl))).
  - exact (proj2
             (pick_time_value_under_other_key Demo.env "picks_uw" None
                (KStr "*") false [] [] "foo" 60 None []
                eq_refl eq_refl eq_refl)).
Defined.

(** * Further properties of the code *)

(** ** The wildcard mapper and the field units *)

Lemma contains_replace_self (a b : ascii) (s : string) :
  Ascii.eqb b a = false -> PyStr.contains a (PyStr.replace a b s) = false.
Proof.
  intro Hb. induction s as [|c s IH]; simpl; [reflexivity|].
  rewrite IH, orb_false_r.
  destruct (Ascii.eqb c a) eqn:Hc; [exact Hb | exact Hc].
Qed.

(** X1. The output of [wildcard_mapper] holds no asterisk and no question
    mark, so mapping a value twice is the same as mapping it once. *)
Theorem wildcard_mapper_idempotent (c : string) :
  PyStr.contains "*" (wildcard_mapper c) = false
  /\ PyStr.contains "?" (wildcard_mapper c) = false
  /\ wildcard_mapper (wildcard_mapper c) = wildcard_mapper c.
Proof.
  assert (Hs : PyStr.contains "*" (wildcard_mapper c) = false).
  { rewrite wildcard_mapper_replace.
    rewrite contains_replace_other by reflexivity.
    now apply contains_replace_self. }
  assert (Hq : PyStr.contains "?" (wildcard_mapper c) = false).
  { rewrite wildcard_mapper_replace. now apply contains_replace_self. }
  repeat split; try assumption.
  apply wildcard_mapper_no_wild. now rewrite Hs, Hq.
Qed.

Lemma split_app_separator (sep : ascii) (w rest : string) :
  PyStr.contains sep w = false ->
  PyStr.split sep (w ++ String sep rest) = w :: PyStr.split sep rest.
Proof.
  induction w as [|c w IH]; simpl; intro H.
  - now rewrite Ascii.eqb_refl.
  - apply orb_false_iff in H. destruct H as [Hc Hw].
    rewrite Hc, (IH Hw). reflexivity.
Qed.

Lemma contains_app (a : ascii) (s1 s2 : string) :
  PyStr.contains a (s1 ++ s2) = PyStr.contains a s1 || PyStr.contains a s2.
Proof.
  induction s1 as [|c s1 IH]; simpl; [reflexivity|].
  now rewrite IH, orb_assoc.
Qed.

(** X2. A value that holds an underscore or a percent sign but no asterisk,
    question mark or comma is compared by equality when it is the whole
    field value, and by LIKE when it is the first element of a
    comma-delimited value made of exact identifiers. *)
Theorem raw_token_equality_alone_like_in_list (k w rest : string) :
  exact_identifier w = true ->
  exact_identifier rest = true ->
  PyStr.contains "%" w || PyStr.contains "_" w = true ->
  field_cond k w = CAtom (AEq k w)
  /\ field_cond k (w ++ "," ++ rest) = COr [ALike k w; elem_atom k rest]
  /\ field_q k w = k ++ " = '" ++ w ++ "'"
  /\ field_q k (w ++ "," ++ rest)
     = "(" ++ PyStr.join " OR " [k ++ " LIKE '" ++ w ++ "'"; elem_q k rest] ++ ")".
Proof.
  intros Hw Hrest Hraw.
  assert (Hparts := Hw). unfold exact_identifier in Hparts.
  apply andb_true_iff in Hparts. destruct Hparts as [Hparts Hwc].
  apply andb_true_iff in Hparts. destruct Hparts as [Hws Hwq].
  apply negb_true_iff in Hwc, Hws, Hwq.
  assert (Hparts := Hrest). unfold exact_identifier in Hparts.
  apply andb_true_iff in Hparts. destruct Hparts as [Hparts Hrc].
  apply andb_true_iff in Hparts. destruct Hparts as [Hrs Hrq].
  apply negb_true_iff in Hrc, Hrs, Hrq.
  assert (Hlist : field_cond k (w ++ "," ++ rest) = COr [ALike k w; elem_atom k rest]).
  { rewrite field_cond_comma.
    - rewrite wildcard_mapper_no_wild.
      + change (w ++ "," ++ rest) with (w ++ String "," rest).
        rewrite (split_app_separator "," w rest Hwc).
        assert (Hone : PyStr.split "," rest = [rest]).
        { clear -Hrc. induction rest as [|c r IH]; simpl in *; [reflexivity|].
          apply orb_false_iff in Hrc. destruct Hrc as [Hc Hr].
          rewrite Hc, (IH Hr). reflexivity. }
        rewrite Hone. simpl. unfold elem_atom at 1. now rewrite Hraw.
      + rewrite !contains_app. simpl. now rewrite Hwq, Hws, Hrq, Hrs.
    - rewrite contains_app. simpl. now rewrite orb_true_r. }
  split; [now apply field_cond_exact|].
  split; [exact Hlist|].
  split.
  - rewrite <- render_field, (field_cond_exact k w Hw). reflexivity.
  - rewrite <- render_field, Hlist. simpl. now rewrite render_elem.
Qed.

(** ** [get_waveforms] past the range check *)

Lemma get_waveforms_after_checks (E : Env) (rq : request) (o : options)
    (qs : list string) :
  py_gt E (starttime rq) (endtime rq) = inr false ->
  compile_qs E rq o = inr qs ->
  get_waveforms E rq o
  = (rst <- execute_index E (query_str qs) ;;
     st <- read_records E (starttime rq) (endtime rq) rst [] ;;
     placeholder "minimumlength" (minimumlength o) ;;;
     placeholder "longestonly" (longestonly o) ;;;
     st <- attach E o st ;;
     save E o st ;;;
     ret st).
Proof.
  intros Hgt Hqs. unfold get_waveforms. rewrite Hgt, Hqs.
  change (@lift bool (inr false)) with (ret false). rewrite bind_ret_l.
  change (@lift (list string) (inr qs)) with (ret qs). rewrite bind_ret_l.
  reflexivity.
Qed.

(** X3. A start or end time that is neither a string nor a [UTCDateTime]
    (and does not compare as start after end) makes [get_waveforms] raise
    the [TypeError] of lines 159/165 with an empty log: the index is not
    queried. *)
Theorem time_bounds_are_type_checked (E : Env) (rq : request) (o : options) :
  py_gt E (starttime rq) (endtime rq) = inr false ->
  is_time (starttime rq) && is_time (endtime rq) = false ->
  get_waveforms E rq o
  = ([], inl (TypeError
               ((if is_time (starttime rq) then "endtime" else "starttime")
                ++ " must be type str or UTCDateTime"))).
Proof.
  intros Hgt Ht. unfold get_waveforms, compile_qs. rewrite Hgt.
  destruct (is_time (starttime rq)); simpl in Ht.
  - rewrite Ht. reflexivity.
  - reflexivity.
Qed.

Lemma execute_index_rows (E : Env) (sql : string) (rows : list (nat * nat * string)) :
  sqlite_rows E sql = Some rows -> execute_index E sql = ([Execute sql], inr rows).
Proof. intro H. unfold execute_index. simpl. now rewrite H. Qed.

(** X4. The two unimplemented options are only looked at after the
    retrieval: when [minimumlength] or [longestonly] is set and the records
    could be read, the call has queried the index and read the files by the
    time it raises [NotImplementedError], for [minimumlength] first. *)
Theorem unimplemented_options_fail_after_retrieval (E : Env) (rq : request)
    (o : options) (qs : list string) (rows : list (nat * nat * string))
    (t : list event) (st : list trace) :
  py_gt E (starttime rq) (endtime rq) = inr false ->
  compile_qs E rq o = inr qs ->
  sqlite_rows E (query_str qs) = Some rows ->
  read_records E (starttime rq) (endtime rq) rows [] = (t, inr st) ->
  (minimumlength o <> None \/ longestonly o <> None) ->
  get_waveforms E rq o
  = ((Execute (query_str qs) :: t)%list,
     inl (NotImplementedError
            ((match minimumlength o with
              | Some _ => "minimumlength"
              | None => "longestonly"
              end) ++ " placeholder - not used"))).
Proof.
  intros Hgt Hqs Hrows Hrr Hset.
  rewrite (get_waveforms_after_checks E rq o qs Hgt Hqs).
  rewrite (execute_index_rows E _ rows Hrows). simpl. rewrite Hrr. simpl.
  destruct (minimumlength o) as [v|].
  - simpl. now rewrite app_nil_r.
  - destruct (longestonly o) as [v|].
    + simpl. now rewrite app_nil_r.
    + destruct Hset as [H|H]; now elim H.
Qed.

Lemma read_records_app (E : Env) (s e : pyval)
    (r1 r2 : list (nat * nat * string)) (st : list trace) :
  read_records E s e (r1 ++ r2) st
  = bind (read_records E s e r1 st) (read_records E s e r2).
Proof.
  revert st. induction r1 as [|[[off len] file] r1 IH]; intro st.
  - symmetry. apply (bind_ret_l st (read_records E s e r2)).
  - change (read_records E s e (((off, len, file) :: r1) ++ r2) st)
      with (bind (read_range E file off len)
              (fun buff =>
                 match obspy_read E buff s e with
                 | Some trs => read_records E s e (r1 ++ r2) (st ++ trs)%list
                 | None => bind (breakpoint E)
                             (fun _ => read_records E s e (r1 ++ r2) st)
                 end)).
    change (read_records E s e ((off, len, file) :: r1) st)
      with (bind (read_range E file off len)
              (fun buff =>
                 match obspy_read E buff s e with
                 | Some trs => read_records E s e r1 (st ++ trs)%list
                 | None => bind (breakpoint E)
                             (fun _ => read_records E s e r1 st)
                 end)).
    rewrite bind_assoc. apply bind_ext. intro buff.
    destruct (obspy_read E buff s e).
    + apply IH.
    + rewrite bind_assoc. apply bind_ext. intros _. apply IH.
Qed.

Lemma read_records_all_decoded (E : Env) (s e : pyval)
    (rows : list (nat * nat * string)) (st : list trace) :
  Forall (fun row => decoded E s e row <> None) rows ->
  read_records E s e rows st
  = (map (fun row => OpenRead (file_of row)) rows,
     inr (st ++ concat (map (traces_of E s e) rows))%list).
Proof.
  intro H. revert st.
  induction H as [|[[off len] file] rows Hrow _ IH]; intro st; simpl.
  - now rewrite app_nil_r.
  - unfold traces_of at 1. unfold decoded in *. unfold read_range.
    destruct (file_bytes E file) as [content|]; [|now elim Hrow]. simpl.
    destruct (obspy_read E (firstn len (skipn off content)) s e) as [trs|];
      [|now elim Hrow].
    rewrite (IH (st ++ trs)%list). now rewrite app_assoc.
Qed.

(** X5. When every index record's file opens and decodes, and nothing is
    asked for after the retrieval, [get_waveforms] sends the one SELECT,
    opens the file of every record once, in the order of the rows, and
    returns the decoded traces concatenated in that order. *)
Theorem retrieval_reads_every_record_in_order (E : Env) (rq : request)
    (o : options) (qs : list string) (rows : list (nat * nat * string)) :
  py_gt E (starttime rq) (endtime rq) = inr false ->
  compile_qs E rq o = inr qs ->
  sqlite_rows E (query_str qs) = Some rows ->
  Forall (fun row => decoded E (starttime rq) (endtime rq) row <> None) rows ->
  retrieval_only o ->
  get_waveforms E rq o
  = ((Execute (query_str qs) :: map (fun row => OpenRead (file_of row)) rows)%list,
     inr (concat (map (traces_of E (starttime rq) (endtime rq)) rows))).
Proof.
  intros Hgt Hqs Hrows Hall (Hmin & Hlong & Hatt & Hfile).
  rewrite (get_waveforms_after_checks E rq o qs Hgt Hqs).
  rewrite (execute_index_rows E _ rows Hrows). simpl.
  rewrite (read_records_all_decoded E _ _ rows [] Hall). simpl.
  unfold attach, save. rewrite Hmin, Hlong, Hatt, Hfile. simpl.
  now rewrite !app_nil_r.
Qed.

(** X6. A segment file that cannot be opened ends the retrieval with the
    exception of [open]: the records before it have been read, its own open
    is the last event, and the files of the records after it are never
    opened. *)
Theorem unreadable_file_aborts_retrieval (E : Env) (rq : request) (o : options)
    (qs : list string) (pre post : list (nat * nat * string))
    (off len : nat) (file : string) :
  py_gt E (starttime rq) (endtime rq) = inr false ->
  compile_qs E rq o = inr qs ->
  sqlite_rows E (query_str qs) = Some (pre ++ (off, len, file) :: post)%list ->
  Forall (fun row => decoded E (starttime rq) (endtime rq) row <> None) pre ->
  file_bytes E file = None ->
  get_waveforms E rq o
  = ((Execute (query_str qs)
      :: map (fun row => OpenRead (file_of row)) pre ++ [OpenRead file])%list,
     inl (ExternalError "open")).
Proof.
  intros Hgt Hqs Hrows Hpre Hfile.
  rewrite (get_waveforms_after_checks E rq o qs Hgt Hqs).
  rewrite (execute_index_rows E _ _ Hrows). simpl.
  rewrite read_records_app.
  rewrite (read_records_all_decoded E _ _ pre [] Hpre). simpl.
  unfold read_range. rewrite Hfile. simpl. reflexivity.
Qed.

Lemma executed_nil_bind {A B} (m : M A) (k : A -> M B) :
  executed (fst m) = [] -> (forall a, executed (fst (k a)) = []) ->
  executed (fst (bind m k)) = [].
Proof.
  intros Hm Hk. rewrite fst_bind, executed_app, Hm. simpl.
  destruct (snd m); [reflexivity | apply Hk].
Qed.

Lemma executed_read_records (E : Env) (s e : pyval)
    (rows : list (nat * nat * string)) (st : list trace) :
  executed (fst (read_records E s e rows st)) = [].
Proof.
  revert st. induction rows as [|[[off len] file] rows IH]; intro st; simpl.
  - reflexivity.
  - apply executed_nil_bind.
    + unfold read_range. apply executed_nil_bind; [reflexivity|]. intros _.
      destruct (file_bytes E file); reflexivity.
    + intro buff. destruct (obspy_read E buff s e); [apply IH|].
      apply executed_nil_bind; [|intros _; apply IH].
      unfold breakpoint. apply executed_nil_bind; [reflexivity|]. intros _.
      destruct (debugger_resumes E); reflexivity.
Qed.

Lemma executed_after_retrieval (E : Env) (o : options) (st : list trace) :
  executed (fst (placeholder "minimumlength" (minimumlength o) ;;;
                 placeholder "longestonly" (longestonly o) ;;;
                 st' <- attach E o st ;;
                 save E o st' ;;;
                 ret st')) = [].
Proof.
  apply executed_nil_bind.
  { unfold placeholder. destruct (minimumlength o); reflexivity. }
  intros _. apply executed_nil_bind.
  { unfold placeholder. destruct (longestonly o); reflexivity. }
  intros _. apply executed_nil_bind.
  { unfold attach. destruct (attach_response o); [|reflexivity].
    destruct (inventory o) as [[|]|]; reflexivity. }
  intro st'. apply executed_nil_bind; [|reflexivity].
  unfold save. destruct (filename o); [|reflexivity].
  apply executed_nil_bind; [reflexivity|]. intros _.
  destruct (stream_write E _ _); reflexivity.
Qed.

(** X7. One call to [get_waveforms] sends at most one statement: none when
    the range check or the type checks fail, and otherwise exactly the
    compiled SELECT, whatever happens to the records afterwards. *)
Theorem one_statement_per_call (E : Env) (rq : request) (o : options) :
  executed (fst (get_waveforms E rq o))
  = match py_gt E (starttime rq) (endtime rq), compile_qs E rq o with
    | inr false, inr qs => [query_str qs]
    | _, _ => []
    end.
Proof.
  destruct (py_gt E (starttime rq) (endtime rq)) as [e|[|]] eqn:Hgt.
  - unfold get_waveforms. now rewrite Hgt.
  - unfold get_waveforms. now rewrite Hgt.
  - destruct (compile_qs E rq o) as [e|qs] eqn:Hqs.
    + unfold get_waveforms. now rewrite Hgt, Hqs.
    + rewrite (get_waveforms_after_checks E rq o qs Hgt Hqs).
      rewrite fst_bind, executed_app.
      assert (Hx : executed (fst (execute_index E (query_str qs))) = [query_str qs]).
      { unfold execute_index. simpl.
        destruct (sqlite_rows E (query_str qs)); reflexivity. }
      rewrite Hx. simpl. f_equal.
      destruct (snd (execute_index E (query_str qs))) as [e|rst]; [reflexivity|].
      apply executed_nil_bind; [apply executed_read_records|].
      intro st. apply executed_after_retrieval.
Qed.

Lemma snd_save (E : Env) (o : options) (st : list trace) :
  snd (save E o st) = inr tt.
Proof.
  unfold save. destruct (filename o); [|reflexivity].
  rewrite snd_bind. simpl. destruct (stream_write E _ _); reflexivity.
Qed.

(** X8. Writing the stream to [filename] is best-effort: with or without
    a file name, and whether or not the write goes through, the call returns
    the same stream or raises the same exception. *)
Theorem output_file_never_changes_result (E : Env) (rq : request) (o : options) :
  snd (get_waveforms E rq o) = snd (get_waveforms E rq (without_filename o)).
Proof.
  unfold get_waveforms.
  change (compile_qs E rq (without_filename o)) with (compile_qs E rq o).
  rewrite !snd_bind.
  destruct (snd (lift (py_gt E (starttime rq) (endtime rq)))) as [e|[|]];
    [reflexivity | reflexivity |].
  cbv beta iota. rewrite !snd_bind.
  destruct (snd (lift (compile_qs E rq o))) as [e|qs]; [reflexivity|].
  cbv beta iota. rewrite !snd_bind.
  destruct (snd (execute_index E (query_str qs))) as [e|rst]; [reflexivity|].
  cbv beta iota. rewrite !snd_bind.
  destruct (snd (read_records E (starttime rq) (endtime rq) rst [])) as [e|st];
    [reflexivity|].
  cbv beta iota.
  change (minimumlength (without_filename o)) with (minimumlength o).
  change (longestonly (without_filename o)) with (longestonly o).
  rewrite !snd_bind.
  destruct (snd (placeholder "minimumlength" (minimumlength o))) as [e|[]];
    [reflexivity|].
  cbv beta iota.
  destruct (snd (placeholder "longestonly" (longestonly o))) as [e|[]];
    [reflexivity|].
  change (attach E (without_filename o) st) with (attach E o st).
  destruct (snd (attach E o st)) as [e|st']; [reflexivity|].
  rewrite !snd_bind, !snd_save. reflexivity.
Qed.

Lemma written_app (t1 t2 : list event) :
  written (t1 ++ t2) = (written t1 ++ written t2)%list.
Proof.
  induction t1 as [|ev t1 IH]; simpl; [reflexivity|].
  destruct ev; simpl; try exact IH. now rewrite IH.
Qed.

Lemma written_read_records (E : Env) (s e : pyval)
    (rows : list (nat * nat * string)) (st : list trace) :
  written (fst (read_records E s e rows st)) = [].
Proof.
  revert st. induction rows as [|[[off len] file] rows IH]; intro st; simpl.
  - reflexivity.
  - rewrite fst_bind, written_app.
    assert (Hr : written (fst (read_range E file off len)) = []).
    { unfold read_range. simpl. destruct (file_bytes E file); reflexivity. }
    rewrite Hr. simpl.
    destruct (snd (read_range E file off len)) as [x|buff]; [reflexivity|].
    destruct (obspy_read E buff s e); [apply IH|].
    rewrite fst_bind, written_app.
    assert (Hb : written (fst (breakpoint E)) = []).
    { unfold breakpoint. simpl. destruct (debugger_resumes E); reflexivity. }
    rewrite Hb. simpl.
    destruct (snd (breakpoint E)); [reflexivity | apply IH].
Qed.

Lemma written_after_retrieval (E : Env) (o : options) (st : list trace) :
  let tail := placeholder "minimumlength" (minimumlength o) ;;;
              placeholder "longestonly" (longestonly o) ;;;
              st' <- attach E o st ;;
              save E o st' ;;;
              ret st' in
  written (fst tail)
  = match filename o, snd tail with
    | Some fn, inr _ => [fn]
    | _, _ => []
    end.
Proof.
  unfold placeholder, attach, save.
  destruct (minimumlength o), (longestonly o), (attach_response o),
    (inventory o) as [[|]|], (filename o) as [fn|]; simpl;
    try reflexivity; destruct (stream_write E fn _); reflexivity.
Qed.

Lemma written_get_waveforms (E : Env) (rq : request) (o : options) :
  written (fst (get_waveforms E rq o))
  = match filename o, snd (get_waveforms E rq o) with
    | Some fn, inr _ => [fn]
    | _, _ => []
    end.
Proof.
  destruct (py_gt E (starttime rq) (endtime rq)) as [e|[|]] eqn:Hgt.
  - unfold get_waveforms. rewrite Hgt. simpl. now destruct (filename o).
  - unfold get_waveforms. rewrite Hgt. simpl. now destruct (filename o).
  - destruct (compile_qs E rq o) as [e|qs] eqn:Hqs.
    + unfold get_waveforms. rewrite Hgt, Hqs. simpl. now destruct (filename o).
    + rewrite (get_waveforms_after_checks E rq o qs Hgt Hqs).
      rewrite fst_bind, snd_bind, written_app.
      assert (Hx : written (fst (execute_index E (query_str qs))) = []).
      { unfold execute_index. simpl.
        destruct (sqlite_rows E (query_str qs)); reflexivity. }
      rewrite Hx. simpl.
      destruct (snd (execute_index E (query_str qs))) as [e|rst];
        [now destruct (filename o)|].
      rewrite fst_bind, snd_bind, written_app, written_read_records. simpl.
      destruct (snd (read_records E (starttime rq) (endtime rq) rst [])) as [e|st];
        [now destruct (filename o)|].
      apply (written_after_retrieval E o st).
Qed.

(** X9. [get_waveforms] writes the stream to [filename] exactly when a
    file name is given and the call returns a stream: a call that raises,
    at any stage, has written nothing, and a call without file name never
    writes. *)
Theorem stream_written_iff_call_succeeds (E : Env) (rq : request) (o : options) :
  written (fst (get_waveforms E rq o))
  = match filename o, snd (get_waveforms E rq o) with
    | Some fn, inr _ => [fn]
    | _, _ => []
    end.
Proof. exact (written_get_waveforms E rq o). Qed.

(** ** [get_waveforms_bulk] in general *)

Lemma snd_bulk_save (E : Env) (fn : option string) (st : list trace) :
  snd (bulk_save E fn st) = inr tt.
Proof.
  unfold bulk_save. destruct fn as [f|]; [|reflexivity].
  destruct (String.eqb f EmptyString); [reflexivity|].
  rewrite snd_bind. simpl. destruct (stream_write E f st); reflexivity.
Qed.

(** X10. Called on a list, [get_waveforms_bulk] never raises: it returns
    the streams of the sub-requests that succeeded, concatenated in the
    order of the list, and its log reports each failing sub-request once,
    with its exception, in that order. *)
Theorem bulk_is_best_effort (E : Env) (items : list request) (o : options) :
  snd (get_waveforms_bulk E (BList items) o)
  = inr (concat (map (delivered E (without_filename o)) items))
  /\ failures (fst (get_waveforms_bulk E (BList items) o))
     = flat_map (failure_of E (without_filename o)) items.
Proof.
  destruct (bulk_loop_best_effort E (without_filename o) items []) as [Hs Hf].
  unfold get_waveforms_bulk. split.
  - rewrite snd_bind, Hs. rewrite snd_bind, snd_bulk_save. reflexivity.
  - rewrite fst_bind, failures_app, Hf, Hs.
    rewrite fst_bind, failures_app, snd_bulk_save.
    assert (Hsave : failures (fst (bulk_save E (filename o)
                (concat (map (delivered E (without_filename o)) items)))) = []).
    { unfold bulk_save. destruct (filename o) as [f|]; [|reflexivity].
      destruct (String.eqb f EmptyString); [reflexivity|].
      rewrite fst_bind, failures_app. simpl.
      destruct (stream_write E f _); reflexivity. }
    simpl. rewrite Hsave. simpl. now rewrite !app_nil_r.
Qed.

Lemma written_bulk_loop (E : Env) (o : options) (items : list request)
    (st : list trace) :
  filename o = None -> written (fst (bulk_loop E items o st)) = [].
Proof.
  intro Hno. revert st. induction items as [|b rest IH]; intro st; simpl.
  - reflexivity.
  - pose proof (written_get_waveforms E b o) as Hw.
    rewrite Hno in Hw.
    destruct (get_waveforms E b o) as [t [e|s]]; simpl in Hw.
    + specialize (IH st).
      destruct (bulk_loop E rest o st) as [t' r']. simpl in *.
      rewrite written_app, Hw. simpl. exact IH.
    + specialize (IH (st ++ s)%list).
      destruct (bulk_loop E rest o (st ++ s)) as [t' r']. simpl in *.
      rewrite written_app, Hw. simpl. exact IH.
Qed.

(** X11. A bulk call writes at most once, after the loop: no sub-request
    writes a file, and the aggregate stream is written to [filename] exactly
    when a non-empty file name was given, also when sub-requests failed. *)
Theorem bulk_writes_aggregate_once (E : Env) (items : list request) (o : options) :
  written (fst (get_waveforms_bulk E (BList items) o))
  = match filename o with
    | Some f => if String.eqb f EmptyString then [] else [f]
    | None => []
    end.
Proof.
  unfold get_waveforms_bulk.
  rewrite fst_bind, written_app.
  rewrite (written_bulk_loop E (without_filename o) items [] eq_refl).
  destruct (bulk_loop_best_effort E (without_filename o) items []) as [Hs _].
  rewrite Hs. simpl.
  rewrite fst_bind, written_app, snd_bulk_save. simpl. rewrite app_nil_r.
  unfold bulk_save. destruct (filename o) as [f|]; [|reflexivity].
  destruct (String.eqb f EmptyString); [reflexivity|].
  simpl. destruct (stream_write E f _); reflexivity.
Qed.

(** ** The catalog builder in general *)

Lemma quake_filter_known (E : Env) (k : string) (i : pyval) :
  PyStr.mem k QuakeClient.known_keys = true ->
  fst (QuakeClient.filter E k i) = []
  /\ (forall q, snd (QuakeClient.filter E k i) = inr q -> List.length q = 1).
Proof.
  intro Hk.
  assert (Ht : forall op,
            fst (QuakeClient.time_bound E op i) = []
            /\ (forall q, snd (QuakeClient.time_bound E op i) = inr q ->
                  List.length q = 1)).
  { intro op. unfold QuakeClient.time_bound.
    destruct i; try (destruct (utc_parse E _)); simpl; split;
      try reflexivity; intros q Hq; inversion Hq; reflexivity. }
  unfold PyStr.mem, QuakeClient.known_keys in Hk. simpl in Hk.
  unfold QuakeClient.filter, PyStr.mem. simpl.
  repeat match goal with
         | |- context [String.eqb k ?s] =>
             destruct (String.eqb k s); simpl in Hk |- *
         end;
    try apply Ht;
    try (split; [reflexivity | intros q Hq; inversion Hq; reflexivity]).
  discriminate.
Qed.

(** X12. When the catalog builder's loop goes through, it has appended
    exactly one predicate for every keyword whose key is in its table, none
    for the others, and it has printed one diagnostic for each of the others,
    in the order of the keywords. *)
Theorem catalog_predicates_follow_known_keys (E : Env)
    (kwargs : list (string * pyval)) (qs0 qs : list string) (t : list event) :
  QuakeClient.filters E kwargs qs0 = (t, inr qs) ->
  List.length qs = List.length qs0 + List.length (List.filter quake_known kwargs)
  /\ t = map (fun kv => QuakeClient.not_implemented (fst kv))
             (List.filter (fun kv => negb (quake_known kv)) kwargs).
Proof.
  revert qs0 t. induction kwargs as [|[k i] rest IH]; intros qs0 t H.
  - simpl in H. inversion H; subst. simpl. split; [lia | reflexivity].
  - change (QuakeClient.filters E ((k, i) :: rest) qs0)
      with (bind (QuakeClient.filter E k i)
              (fun q => QuakeClient.filters E rest (qs0 ++ q)%list)) in H.
    simpl List.filter.
    assert (Hq : quake_known (k, i) = PyStr.mem k QuakeClient.known_keys)
      by reflexivity.
    rewrite !Hq. clear Hq.
    destruct (PyStr.mem k QuakeClient.known_keys) eqn:Hk.
    + destruct (quake_filter_known E k i Hk) as [Hlog Hone].
      destruct (QuakeClient.filter E k i) as [t1 [e|q]].
      * simpl in H. discriminate.
      * simpl in Hlog. subst t1. specialize (Hone q eq_refl).
        simpl in H.
        destruct (QuakeClient.filters E rest (qs0 ++ q)) as [t2 r2] eqn:H2.
        inversion H; subst. destruct (IH _ _ H2) as [IHl IHt].
        rewrite IHl, length_app, Hone. simpl. split; [lia | exact IHt].
    + rewrite (quake_filter_unknown E k i Hk) in H. simpl in H.
      rewrite app_nil_r in H.
      destruct (QuakeClient.filters E rest qs0) as [t2 r2] eqn:H2.
      inversion H; subst. destruct (IH _ _ H2) as [IHl IHt].
      simpl. split; [exact IHl | now rewrite IHt].
Qed.

Lemma printed_app (t1 t2 : list event) :
  printed (t1 ++ t2) = (printed t1 ++ printed t2)%list.
Proof.
  induction t1 as [|ev t1 IH]; simpl; [reflexivity|].
  destruct ev; simpl; try exact IH. now rewrite IH.
Qed.

Lemma executed_quake_filter (E : Env) (k : string) (i : pyval) :
  executed (fst (QuakeClient.filter E k i)) = [].
Proof.
  assert (Ht : forall op, executed (fst (QuakeClient.time_bound E op i)) = []).
  { intro op. unfold QuakeClient.time_bound.
    destruct i; try (destruct (utc_parse E _)); reflexivity. }
  unfold QuakeClient.filter.
  repeat match goal with
         | |- context [if ?c then _ else _] => destruct c
         end;
    try apply Ht; reflexivity.
Qed.

Lemma executed_quake_filters (E : Env) (kwargs : list (string * pyval))
    (qs : list string) :
  executed (fst (QuakeClient.filters E kwargs qs)) = [].
Proof.
  revert qs. induction kwargs as [|[k i] rest IH]; intro qs; simpl.
  - reflexivity.
  - apply executed_nil_bind; [apply executed_quake_filter | intro q; apply IH].
Qed.

(** The part of [query] after the loop: lines 81-89 and 179-188. *)
Lemma select_outcome (E : Env) (showquery : bool) (sql qk : string)
    (ks : list string) (keys : keys_arg) :
  let body := show showquery sql ;;; run_select E sql qk ks keys in
  snd body
  = match mysql_rows E sql with
    | Some rows => inr {| df_data := rows;
                          df_columns := if PyStr.contains "*" qk then ks
                                        else match keys with
                                             | KStr s => [s]
                                             | KList l => l
                                             end |}
    | None => inl (ExternalError "mysql")
    end
  /\ executed (fst body) = [sql]
  /\ printed (fst body) = if showquery then [sql] else [].
Proof.
  unfold show, run_select, execute_mysql, rst2df.
  destruct showquery, (mysql_rows E sql), (PyStr.contains "*" qk); simpl;
    repeat split.
Qed.

(** X13. In the catalog builder a [mintime] or [maxtime] value that is not
    a [UTCDateTime] and that obspy cannot convert makes [query] raise before
    the SELECT: the only statement that can have been sent is the lookup of
    the column names. *)
Theorem catalog_time_bound_must_convert (E : Env)
    (self_keys : option (list string)) (keys : keys_arg) (showquery : bool)
    (pre post : list (string * pyval)) (k : string) (v : pyval)
    (t1 : list event) (qs1 : list string) :
  k = "mintime" \/ k = "maxtime" ->
  (forall t, v <> VUTC t) ->
  utc_parse E v = None ->
  QuakeClient.filters E pre [] = (t1, inr qs1) ->
  let run := QuakeClient.query E self_keys keys showquery
               (pre ++ (k, v) :: post) in
  (forall sql, In sql (executed (fst run)) -> sql = show_columns "catalog")
  /\ (forall ks, snd (ensure_keys E "catalog" self_keys) = inr ks ->
        snd run = inl (ExternalError "obspy.UTCDateTime")).
Proof.
  intros Hk Hv Hparse Hpre run.
  assert (Hstep : QuakeClient.filter E k v
                  = ([], inl (ExternalError "obspy.UTCDateTime"))).
  { unfold QuakeClient.filter, QuakeClient.time_bound.
    destruct Hk; subst k; simpl; rewrite Hparse;
      destruct v as [s|t|r]; try reflexivity; now elim (Hv t). }
  assert (Hloop : QuakeClient.filters E (pre ++ (k, v) :: post) []
                  = (t1, inl (ExternalError "obspy.UTCDateTime"))).
  { rewrite quake_filters_app, Hpre. simpl. rewrite Hstep. simpl.
    now rewrite app_nil_r. }
  assert (Ht1 : executed t1 = []).
  { pose proof (executed_quake_filters E pre []) as H. now rewrite Hpre in H. }
  subst run. unfold QuakeClient.query. rewrite Hloop. split.
  - intro sql. rewrite fst_bind, executed_app.
    destruct (snd (ensure_keys E QuakeClient.table self_keys)) as [e|ks]; simpl.
    + rewrite app_nil_r. apply executed_ensure_keys.
    + rewrite Ht1, app_nil_r. apply executed_ensure_keys.
  - intros ks Hks. rewrite snd_bind.
    change QuakeClient.table with "catalog". now rewrite Hks.
Qed.

(** ** What both builders do after their loop *)

Lemma query_tail {X} (E : Env) (m : M X) (stmt : X -> string) (qk : string)
    (cols : X -> list string) (keys : keys_arg) (showquery : bool) :
  let Q := bind m (fun x => show showquery (stmt x) ;;;
                            run_select E (stmt x) qk (cols x) keys) in
  snd Q
  = match snd m with
    | inl e => inl e
    | inr x =>
        match mysql_rows E (stmt x) with
        | Some rows => inr {| df_data := rows; df_columns := labels_of qk (cols x) keys |}
        | None => inl (ExternalError "mysql")
        end
    end
  /\ executed (fst Q)
     = (executed (fst m)
        ++ match snd m with inr x => [stmt x] | inl _ => [] end)%list
  /\ printed (fst Q)
     = (printed (fst m)
        ++ match snd m with
           | inr x => if showquery then [stmt x] else []
           | inl _ => []
           end)%list.
Proof.
  cbv zeta. rewrite snd_bind, fst_bind, executed_app, printed_app.
  destruct (snd m) as [e|x]; [repeat split|].
  destruct (select_outcome E showquery (stmt x) qk (cols x) keys) as (Hs & He & Hp).
  rewrite Hs, He, Hp. repeat split.
Qed.

Lemma quake_query_prepared (E : Env) (self_keys : option (list string))
    (keys : keys_arg) (showquery : bool) (kwargs : list (string * pyval)) :
  QuakeClient.query E self_keys keys showquery kwargs
  = bind (quake_prepared E self_keys kwargs)
      (fun x => show showquery (QuakeClient.statement keys (snd x)) ;;;
                run_select E (QuakeClient.statement keys (snd x))
                  (query_key keys) (fst x) keys).
Proof.
  unfold QuakeClient.query, quake_prepared.
  rewrite bind_assoc. apply bind_ext. intro ks.
  rewrite bind_assoc. apply bind_ext. intro qs.
  now rewrite bind_ret_l.
Qed.

Lemma pick_query_prepared (E : Env) (table : string)
    (self_keys : option (list string)) (keys : keys_arg) (showquery : bool)
    (kwargs : list (string * pyval)) :
  PickClient.query E table self_keys keys showquery kwargs
  = bind (pick_prepared E table self_keys kwargs)
      (fun x => show showquery (PickClient.statement table keys (snd x)) ;;;
                run_select E (PickClient.statement table keys (snd x))
                  (query_key keys) (fst x) keys).
Proof.
  unfold PickClient.query, pick_prepared.
  rewrite bind_assoc. apply bind_ext. intro ks.
  rewrite bind_assoc. apply bind_ext. intro st.
  now rewrite bind_ret_l.
Qed.

Lemma quake_prepared_outcome (E : Env) (self_keys : option (list string))
    (kwargs : list (string * pyval)) :
  snd (quake_prepared E self_keys kwargs)
  = match snd (ensure_keys E QuakeClient.table self_keys) with
    | inl e => inl e
    | inr ks =>
        match snd (QuakeClient.filters E kwargs []) with
        | inl e => inl e
        | inr qs => inr (ks, qs)
        end
    end
  /\ executed (fst (quake_prepared E self_keys kwargs))
     = executed (fst (ensure_keys E QuakeClient.table self_keys)).
Proof.
  unfold quake_prepared. rewrite snd_bind, fst_bind, executed_app. split.
  - destruct (snd (ensure_keys E QuakeClient.table self_keys)); [reflexivity|].
    rewrite snd_bind.
    destruct (snd (QuakeClient.filters E kwargs [])); reflexivity.
  - destruct (snd (ensure_keys E QuakeClient.table self_keys)); simpl;
      [now rewrite app_nil_r|].
    rewrite fst_bind, executed_app, executed_quake_filters. simpl.
    destruct (snd (QuakeClient.filters E kwargs [])); simpl;
      now rewrite app_nil_r.
Qed.

Lemma pick_prepared_outcome (E : Env) (table : string)
    (self_keys : option (list string)) (kwargs : list (string * pyval)) :
  snd (pick_prepared E table self_keys kwargs)
  = match snd (ensure_keys E table self_keys) with
    | inl e => inl e
    | inr ks =>
        match PickClient.filters E kwargs (None, []) with
        | inl e => inl e
        | inr st => inr (ks, snd st)
        end
    end
  /\ executed (fst (pick_prepared E table self_keys kwargs))
     = executed (fst (ensure_keys E table self_keys))
  /\ printed (fst (pick_prepared E table self_keys kwargs)) = [].
Proof.
  unfold pick_prepared.
  rewrite snd_bind, fst_bind, executed_app, printed_app.
  assert (Hp : printed (fst (ensure_keys E table self_keys)) = []).
  { unfold ensure_keys, execute_mysql. destruct self_keys; [reflexivity|].
    simpl. destruct (mysql_rows E (show_columns table)) as [rows|]; simpl;
      [|reflexivity].
    destruct (first_fields rows); reflexivity. }
  rewrite Hp.
  destruct (snd (ensure_keys E table self_keys)); simpl;
    [now rewrite app_nil_r|].
  destruct (PickClient.filters E kwargs (None, [])); simpl;
    now rewrite app_nil_r.
Qed.

(** X14. [showquery] only prints: with it the two builders return the same
    result and send the same statements as without it, and the one line
    they print in addition, when the loop went through, is the statement
    they send. *)
Theorem showquery_only_prints (E : Env) (table : string)
    (self_keys : option (list string)) (keys : keys_arg)
    (kwargs : list (string * pyval)) :
  (let Q sq := QuakeClient.query E self_keys keys sq kwargs in
   snd (Q true) = snd (Q false)
   /\ executed (fst (Q true)) = executed (fst (Q false))
   /\ printed (fst (Q true))
      = (printed (fst (Q false))
         ++ match snd (quake_prepared E self_keys kwargs) with
            | inr x => [QuakeClient.statement keys (snd x)]
            | inl _ => []
            end)%list)
  /\ (let P sq := PickClient.query E table self_keys keys sq kwargs in
      snd (P true) = snd (P false)
      /\ executed (fst (P true)) = executed (fst (P false))
      /\ printed (fst (P true))
         = match snd (pick_prepared E table self_keys kwargs) with
           | inr x => [PickClient.statement table keys (snd x)]
           | inl _ => []
           end
      /\ printed (fst (P false)) = []).
Proof.
  split; cbv beta zeta.
  - rewrite !quake_query_prepared.
    destruct (query_tail E (quake_prepared E self_keys kwargs)
                (fun x => QuakeClient.statement keys (snd x)) (query_key keys)
                fst keys true) as (Hs1 & He1 & Hp1).
    destruct (query_tail E (quake_prepared E self_keys kwargs)
                (fun x => QuakeClient.statement keys (snd x)) (query_key keys)
                fst keys false) as (Hs0 & He0 & Hp0).
    cbv zeta in *. rewrite Hs1, Hs0, He1, He0, Hp1, Hp0.
    repeat split.
    destruct (snd (quake_prepared E self_keys kwargs)); now rewrite !app_nil_r.
  - rewrite !pick_query_prepared.
    destruct (query_tail E (pick_prepared E table self_keys kwargs)
                (fun x => PickClient.statement table keys (snd x)) (query_key keys)
                fst keys true) as (Hs1 & He1 & Hp1).
    destruct (query_tail E (pick_prepared E table self_keys kwargs)
                (fun x => PickClient.statement table keys (snd x)) (query_key keys)
                fst keys false) as (Hs0 & He0 & Hp0).
    destruct (pick_prepared_outcome E table self_keys kwargs) as (_ & _ & Hpp).
    cbv zeta in *. rewrite Hs1, Hs0, He1, He0, Hp1, Hp0, Hpp.
    repeat split.
    destruct (snd (pick_prepared E table self_keys kwargs)); reflexivity.
Qed.

(** X15. When [query] returns, the frame holds the rows the database gave
    for the SELECT, labelled with the discovered column names when the
    selected keys hold an asterisk (as for the default and for an empty
    list of keys) and with the given keys otherwise; the statements sent are
    the lookup of the column names, if they were not cached, and that
    SELECT. *)
Theorem query_result_shape (E : Env) (table : string)
    (self_keys : option (list string)) (keys : keys_arg) (showquery : bool)
    (kwargs : list (string * pyval)) (t : list event) (df : dataframe) :
  (QuakeClient.query E self_keys keys showquery kwargs = (t, inr df) ->
   exists ks qs,
     snd (quake_prepared E self_keys kwargs) = inr (ks, qs)
     /\ mysql_rows E (QuakeClient.statement keys qs) = Some (df_data df)
     /\ df_columns df = labels ks keys
     /\ executed t
        = (executed (fst (ensure_keys E QuakeClient.table self_keys))
           ++ [QuakeClient.statement keys qs])%list)
  /\ (PickClient.query E table self_keys keys showquery kwargs = (t, inr df) ->
      exists ks qs,
        snd (pick_prepared E table self_keys kwargs) = inr (ks, qs)
        /\ mysql_rows E (PickClient.statement table keys qs) = Some (df_data df)
        /\ df_columns df = labels ks keys
        /\ executed t
           = (executed (fst (ensure_keys E table self_keys))
              ++ [PickClient.statement table keys qs])%list)
  /\ (forall ks, labels ks (KList []) = ks /\ labels ks (KStr "*") = ks).
Proof.
  split; [|split].
  - intro H. rewrite quake_query_prepared in H.
    destruct (query_tail E (quake_prepared E self_keys kwargs)
                (fun x => QuakeClient.statement keys (snd x)) (query_key keys)
                fst keys showquery) as (Hs & He & _).
    destruct (quake_prepared_outcome E self_keys kwargs) as [_ Hex].
    cbv zeta in *. rewrite H in Hs, He. simpl in Hs, He.
    destruct (snd (quake_prepared E self_keys kwargs)) as [e|[ks qs]];
      [discriminate|].
    simpl in *.
    destruct (mysql_rows E (QuakeClient.statement keys qs)) as [rows|] eqn:Hrows;
      [|discriminate].
    inversion Hs; subst. exists ks, qs.
    split; [reflexivity|]. split; [exact Hrows|]. split; [reflexivity|].
    rewrite He, Hex. reflexivity.
  - intro H. rewrite pick_query_prepared in H.
    destruct (query_tail E (pick_prepared E table self_keys kwargs)
                (fun x => PickClient.statement table keys (snd x)) (query_key keys)
                fst keys showquery) as (Hs & He & _).
    destruct (pick_prepared_outcome E table self_keys kwargs) as (_ & Hex & _).
    cbv zeta in *. rewrite H in Hs, He. simpl in Hs, He.
    destruct (snd (pick_prepared E table self_keys kwargs)) as [e|[ks qs]];
      [discriminate|].
    simpl in *.
    destruct (mysql_rows E (PickClient.statement table keys qs)) as [rows|] eqn:Hrows;
      [|discriminate].
    inversion Hs; subst. exists ks, qs.
    split; [reflexivity|]. split; [exact Hrows|]. split; [reflexivity|].
    rewrite He, Hex. reflexivity.
  - intro ks. split; reflexivity.
Qed.

(** X16. The column names are looked up once per client: after a lookup
    that went through, [self._keys] is set, and a query of that client sends
    the SELECT alone, or nothing at all when its loop raises. *)
Theorem cached_columns_are_not_looked_up_again (E : Env) (table : string)
    (self_keys : option (list string)) (keys : keys_arg) (showquery : bool)
    (kwargs : list (string * pyval)) (ks : list string) :
  (snd (ensure_keys E table self_keys) = inr ks ->
   keys_after E table self_keys = Some ks
   /\ executed (fst (PickClient.query E table (keys_after E table self_keys)
                       keys showquery kwargs))
      = match PickClient.filters E kwargs (None, []) with
        | inr st => [PickClient.statement table keys (snd st)]
        | inl _ => []
        end)
  /\ (snd (ensure_keys E QuakeClient.table self_keys) = inr ks ->
      keys_after E QuakeClient.table self_keys = Some ks
      /\ executed (fst (QuakeClient.query E
                          (keys_after E QuakeClient.table self_keys)
                          keys showquery kwargs))
         = match snd (QuakeClient.filters E kwargs []) with
           | inr qs => [QuakeClient.statement keys qs]
           | inl _ => []
           end).
Proof.
  split; intro Hks.
  - destruct (ensure_keys_cached E table self_keys ks Hks) as [Hafter _].
    split; [exact Hafter|]. rewrite Hafter, pick_query_prepared.
    destruct (query_tail E (pick_prepared E table (Some ks) kwargs)
                (fun x => PickClient.statement table keys (snd x)) (query_key keys)
                fst keys showquery) as (_ & He & _).
    destruct (pick_prepared_outcome E table (Some ks) kwargs) as (Hs & Hex & _).
    cbv zeta in He. rewrite He, Hex, Hs. simpl.
    destruct (PickClient.filters E kwargs (None, [])); reflexivity.
  - destruct (ensure_keys_cached E QuakeClient.table self_keys ks Hks) as [Hafter _].
    split; [exact Hafter|]. rewrite Hafter, quake_query_prepared.
    destruct (query_tail E (quake_prepared E (Some ks) kwargs)
                (fun x => QuakeClient.statement keys (snd x)) (query_key keys)
                fst keys showquery) as (_ & He & _).
    destruct (quake_prepared_outcome E (Some ks) kwargs) as (Hs & Hex).
    cbv zeta in He. rewrite He, Hex, Hs. simpl.
    destruct (snd (QuakeClient.filters E kwargs [])); reflexivity.
Qed.

(** ** The pick builder in general *)

(** X17. The pick builder's guard also rejects the hyphen: a string value
    that holds one, under any key, gets the unsupported-wildcard error once
    the earlier filters were accepted, and no SELECT is sent. *)
Theorem pick_rejects_hyphen (E : Env) (table : string)
    (self_keys : option (list string)) (keys : keys_arg) (showquery : bool)
    (pre post : list (string * pyval)) (k s : string)
    (st : option string * list string) :
  PyStr.contains "-" s = true ->
  PickClient.filters E pre (None, []) = inr st ->
  let run := PickClient.query E table self_keys keys showquery
               (pre ++ (k, VStr s) :: post) in
  run = bind (ensure_keys E table self_keys) (fun _ => raise unsupported_wildcard)
  /\ (forall sql, In sql (executed (fst run)) -> sql = show_columns table).
Proof.
  intros Hh Hpre run.
  assert (Hrun : run = bind (ensure_keys E table self_keys)
                         (fun _ => raise unsupported_wildcard)).
  { subst run. apply pick_query_raises.
    rewrite pick_filters_app, Hpre. simpl. destruct st as [q qs].
    unfold PickClient.step. rewrite Hh, !orb_true_r. reflexivity. }
  split; [exact Hrun|].
  intro sql. rewrite Hrun, executed_bind_raise. apply executed_ensure_keys.
Qed.

(** X18. The two builders take time bounds differently: under [mintime]
    or [maxtime] the pick builder rejects every string, with the wildcard
    error when the guard stops it and the unsupported-key error otherwise,
    while the catalog builder converts a string obspy can read and compares
    the timestamp of the instant it denotes. *)
Theorem time_bound_strings_pick_rejects_catalog_converts (E : Env) (k s : string)
    (st : option string * list string) (t : Z) :
  k = "mintime" \/ k = "maxtime" ->
  utc_parse E (VStr s) = Some t ->
  PickClient.step E k (VStr s) st
  = inl (if passes_guard s then unsupported_key k s else unsupported_wildcard)
  /\ QuakeClient.filter E k (VStr s) = QuakeClient.filter E k (VUTC t)
  /\ QuakeClient.filter E k (VUTC t)
     = ret ["timestamp " ++ (if String.eqb k "mintime" then ">=" else "<=")
            ++ " " ++ utc_timestamp E t].
Proof.
  intros Hk Hparse. destruct st as [q qs].
  unfold PickClient.step, passes_guard, QuakeClient.filter, QuakeClient.time_bound.
  rewrite Hparse.
  destruct (PyStr.contains "_" s || PyStr.contains "%" s || PyStr.contains "-" s);
    destruct Hk; subst k; repeat split.
Qed.

Lemma pick_step_length (E : Env) (k : string) (i : pyval)
    (q q' : option string) (qs qs' : list string) :
  PickClient.step E k i (q, qs) = inr (q', qs') ->
  List.length qs' = S (List.length qs).
Proof.
  unfold PickClient.step. intro H.
  assert (Hlen : forall x, List.length (qs ++ [x]) = S (List.length qs)).
  { intro x. rewrite length_app. simpl. lia. }
  destruct i as [s|t|r]; [| |discriminate].
  - destruct (PyStr.contains "_" s || PyStr.contains "%" s || PyStr.contains "-" s);
      [discriminate|].
    destruct (PyStr.mem k PickClient.text_keys).
    + inversion H; subst. apply Hlen.
    + destruct (String.eqb k "phase"); [|discriminate].
      inversion H; subst. apply Hlen.
  - destruct (String.eqb k "mintime").
    + inversion H; subst. apply Hlen.
    + destruct (String.eqb k "maxtime").
      * inversion H; subst. apply Hlen.
      * destruct q as [x|]; [|discriminate]. inversion H; subst. apply Hlen.
Qed.

Lemma pick_filters_length (E : Env) (kwargs : list (string * pyval))
    (q q' : option string) (qs qs' : list string) :
  PickClient.filters E kwargs (q, qs) = inr (q', qs') ->
  List.length qs' = List.length qs + List.length kwargs.
Proof.
  revert q qs. induction kwargs as [|[k i] rest IH]; intros q qs H;
    cbn [PickClient.filters] in H.
  - inversion H; subst. simpl. lia.
  - destruct (PickClient.step E k i (q, qs)) as [e|[q1 qs1]] eqn:Hstep;
      [discriminate|].
    rewrite (IH q1 qs1 H), (pick_step_length E k i q q1 qs qs1 Hstep).
    simpl. lia.
Qed.

(** X19. When the pick builder's loop goes through, every keyword has
    appended exactly one predicate: the WHERE clause has as many predicates
    as there are keywords, and the local [_q] is unbound at the end only for
    an empty keyword list. *)
Theorem pick_one_predicate_per_keyword (E : Env)
    (kwargs : list (string * pyval)) (q : option string) (qs : list string) :
  PickClient.filters E kwargs (None, []) = inr (q, qs) ->
  List.length qs = List.length kwargs
  /\ (q = None <-> kwargs = []).
Proof.
  intro H.
  pose proof (pick_filters_length E kwargs None q [] qs H) as Hlen.
  simpl in Hlen. split; [exact Hlen|].
  pose proof (pick_filters_invariant E kwargs (None, []) (q, qs) eq_refl H) as Hinv.
  unfold q_invariant in Hinv. simpl in Hinv.
  split.
  - intro Hq. subst q. simpl in Hinv. subst qs. simpl in Hlen.
    destruct kwargs; [reflexivity | discriminate].
  - intro Hk. subst kwargs. simpl in H. now inversion H.
Qed.

(** ** The pick client's constructor *)

Lemma has_sub_own_prefix (x : string) :
  PickClientInit.has_sub "picks_" ("picks_" ++ x) = true.
Proof.
  assert (H : String.prefix "picks_" ("picks_" ++ x) = true).
  { simpl. destruct x; reflexivity. }
  simpl PickClientInit.has_sub. apply orb_true_iff. left. exact H.
Qed.

Lemma mem_filter (f : string -> bool) (t : string) (l : list string) :
  f t = true -> PyStr.mem t (List.filter f l) = PyStr.mem t l.
Proof.
  intro Hf. unfold PyStr.mem.
  induction l as [|a l IH]; simpl; [reflexivity|].
  destruct (f a) eqn:Hfa; simpl.
  - now rewrite IH.
  - rewrite IH. destruct (String.eqb_spec t a) as [Heq|Hne]; [|reflexivity].
    subst a. rewrite Hf in Hfa. discriminate.
Qed.

Lemma lower_char_idempotent (c : ascii) :
  PickClientInit.lower_char (PickClientInit.lower_char c)
  = PickClientInit.lower_char c.
Proof.
  destruct c as [[] [] [] [] [] [] [] []]; reflexivity.
Qed.

Lemma lower_idempotent (s : string) :
  PickClientInit.lower (PickClientInit.lower s) = PickClientInit.lower s.
Proof.
  induction s as [|c s IH]; simpl; [reflexivity|].
  now rewrite lower_char_idempotent, IH.
Qed.

(** X20. The pick client's constructor sends the one SHOW TABLES and
    succeeds exactly when the table named [picks_] plus the contributor in
    lower case is among the tables listed; it then keeps that name as its
    table and the listed names that hold [picks_] as the available ones, and
    otherwise raises the unsupported-contributor error. The contributor is
    matched without regard to case. *)
Theorem pick_client_requires_contributor_table (E : Env) (contributor : string)
    (rows : list (list string)) (names : list string) :
  mysql_rows E PickClientInit.show_tables = Some rows ->
  first_fields rows = inr names ->
  PickClientInit.init E contributor
  = ([Execute PickClientInit.show_tables],
     if PyStr.mem (PickClientInit.table_of contributor) names
     then inr {| PickClientInit._contributor := contributor;
                 PickClientInit._table_avail :=
                   List.filter (PickClientInit.has_sub "picks_") names;
                 PickClientInit._table := PickClientInit.table_of contributor |}
     else inl (PickClientInit.unsupported_contributor contributor))
  /\ PickClientInit.table_of (PickClientInit.lower contributor)
     = PickClientInit.table_of contributor.
Proof.
  intros Hrows Hnames. split.
  - unfold PickClientInit.init, execute_mysql. simpl. rewrite Hrows. simpl.
    rewrite Hnames. simpl.
    rewrite (mem_filter _ (PickClientInit.table_of contributor) names
               (has_sub_own_prefix (PickClientInit.lower contributor))).
    destruct (PyStr.mem (PickClientInit.table_of contributor) names); reflexivity.
  - unfold PickClientInit.table_of. now rewrite lower_idempotent.
Qed.

(** ** Attaching the response *)

(** X21. With [attach_response] set and an [inventory] keyword that is not
    an [obspy.Inventory] (a path to a StationXML file, say), a call whose
    retrieval went through raises [NameError]: the test of line 203 names
    [Path], which client.py never imports. Without the keyword the flag does
    nothing. *)
Theorem attach_response_needs_inventory_object (E : Env) (rq : request)
    (o : options) (qs : list string) (rows : list (nat * nat * string))
    (t : list event) (st : list trace) :
  py_gt E (starttime rq) (endtime rq) = inr false ->
  compile_qs E rq o = inr qs ->
  sqlite_rows E (query_str qs) = Some rows ->
  read_records E (starttime rq) (endtime rq) rows [] = (t, inr st) ->
  minimumlength o = None ->
  longestonly o = None ->
  attach_response o = true ->
  (inventory o = Some false ->
   get_waveforms E rq o
   = ((Execute (query_str qs) :: t)%list, inl (NameError "Path")))
  /\ (inventory o = None ->
      snd (get_waveforms E rq o) = inr st).
Proof.
  intros Hgt Hqs Hrows Hrr Hmin Hlong Hatt.
  rewrite (get_waveforms_after_checks E rq o qs Hgt Hqs).
  rewrite (execute_index_rows E _ rows Hrows). simpl. rewrite Hrr. simpl.
  unfold attach, save. rewrite Hmin, Hlong, Hatt. simpl.
  split; intro Hinv; rewrite Hinv; simpl.
  - now rewrite app_nil_r.
  - destruct (filename o) as [fn|]; simpl; [|reflexivity].
    destruct (stream_write E fn st); reflexivity.
Qed.

(** ** The further properties at concrete inputs *)

Lemma raw_token_witness :
  field_cond "station" "A_B" = CAtom (AEq "station" "A_B")
  /\ field_cond "station" "A_B,JCW"
     = COr [ALike "station" "A_B"; AEq "station" "JCW"].
Proof.
  pose proof (raw_token_equality_alone_like_in_list "station" "A_B" "JCW"
                eq_refl eq_refl eq_refl) as H.
  split; [exact (proj1 H) | exact (proj1 (proj2 H))].
Defined.

Lemma time_bounds_type_witness :
  get_waveforms Cases.env Cases.bad_start_rq Demo.defaults
  = ([], inl (TypeError "starttime must be type str or UTCDateTime")).
Proof.
  exact (time_bounds_are_type_checked Cases.env Cases.bad_start_rq
           Demo.defaults eq_refl eq_refl).
Defined.

Lemma unimplemented_options_witness :
  snd (get_waveforms Demo.env Demo.exact_rq Cases.with_minimumlength)
  = inl (NotImplementedError "minimumlength placeholder - not used")
  /\ opened (fst (get_waveforms Demo.env Demo.exact_rq Cases.with_minimumlength))
     = ["good.mseed"; "good.mseed"].
Proof.
  assert (Hset : minimumlength Cases.with_minimumlength <> None
                 \/ longestonly Cases.with_minimumlength <> None).
  { left. discriminate. }
  rewrite (unimplemented_options_fail_after_retrieval Demo.env Demo.exact_rq
             Cases.with_minimumlength _ _ _ _
             eq_refl eq_refl eq_refl eq_refl Hset).
  split; reflexivity.
Defined.

Lemma retrieval_in_order_witness :
  snd (get_waveforms Demo.env Demo.exact_rq Demo.defaults)
  = inr [Demo.tr1; Demo.tr2]
  /\ opened (fst (get_waveforms Demo.env Demo.exact_rq Demo.defaults))
     = ["good.mseed"; "good.mseed"].
Proof.
  assert (Hall : Forall
            (fun row => decoded Demo.env (VUTC 0) (VUTC 60) row <> None)
            [(0, 2, "good.mseed"); (2, 2, "good.mseed")]).
  { constructor; [discriminate|]. constructor; [discriminate|]. constructor. }
  assert (Honly : retrieval_only Demo.defaults).
  { repeat split. }
  rewrite (retrieval_reads_every_record_in_order Demo.env Demo.exact_rq
             Demo.defaults _ _ eq_refl eq_refl eq_refl Hall Honly).
  split; reflexivity.
Defined.

Lemma unreadable_file_witness :
  snd (get_waveforms Cases.env Cases.missing_rq Demo.defaults)
  = inl (ExternalError "open")
  /\ opened (fst (get_waveforms Cases.env Cases.missing_rq Demo.defaults))
     = ["good.mseed"; "missing.mseed"].
Proof.
  assert (Hpre : Forall
            (fun row => decoded Cases.env (VUTC 0) (VUTC 60) row <> None)
            [(0, 2, "good.mseed")]).
  { constructor; [discriminate | constructor]. }
  rewrite (unreadable_file_aborts_retrieval Cases.env Cases.missing_rq
             Demo.defaults _ [(0, 2, "good.mseed")] [(2, 2, "good.mseed")]
             0 2 "missing.mseed" eq_refl eq_refl eq_refl Hpre eq_refl).
  split; reflexivity.
Defined.

Lemma catalog_predicates_witness :
  List.length ["source_id = 'uw1'"; "depth >= 3"]
  = 0 + List.length (List.filter quake_known Cases.mixed_kwargs)
  /\ [Print "query by foo not implement."]
     = map (fun kv => QuakeClient.not_implemented (fst kv))
           (List.filter (fun kv => negb (quake_known kv)) Cases.mixed_kwargs).
Proof.
  exact (catalog_predicates_follow_known_keys Demo.env Cases.mixed_kwargs []
           ["source_id = 'uw1'"; "depth >= 3"]
           [Print "query by foo not implement."] eq_refl).
Defined.

Lemma catalog_time_bound_witness :
  snd (QuakeClient.query Demo.env Demo.cached (KStr "*") false
         [("source_id", VStr "uw1"); ("mintime", VStr "yesterday")])
  = inl (ExternalError "obspy.UTCDateTime").
Proof.
  assert (Hv : forall t, VStr "yesterday" <> VUTC t) by discriminate.
  exact (proj2 (catalog_time_bound_must_convert Demo.env Demo.cached (KStr "*")
                  false [("source_id", VStr "uw1")] [] "mintime"
                  (VStr "yesterday") [] ["source_id = 'uw1'"]
                  (or_introl eq_refl) Hv eq_refl eq_refl)
           ["source_id"; "timestamp"] eq_refl).
Defined.

Lemma query_result_witness :
  exists ks qs,
    snd (quake_prepared Demo.env None [("source_id", VStr "uw1")]) = inr (ks, qs)
    /\ mysql_rows Demo.env (QuakeClient.statement (KList []) qs) = Some []
    /\ ["source_id"; "timestamp"] = labels ks (KList [])
    /\ ["SHOW COLUMNS FROM catalog;"; "SELECT * FROM catalog  WHERE source_id = 'uw1';"]
       = (executed (fst (ensure_keys Demo.env QuakeClient.table None))
          ++ [QuakeClient.statement (KList []) qs])%list.
Proof.
  exact (proj1 (query_result_shape Demo.env "picks_uw" None (KList []) false
                  [("source_id", VStr "uw1")]
                  [Execute "SHOW COLUMNS FROM catalog;";
                   Execute "SELECT * FROM catalog  WHERE source_id = 'uw1';"]
                  {| df_data := []; df_columns := ["source_id"; "timestamp"] |})
           eq_refl).
Defined.

Lemma cached_columns_witness :
  executed (fst (PickClient.query Demo.env "picks_uw"
                   (keys_after Demo.env "picks_uw" None) (KStr "*") false
                   [("station", VStr "RCM")]))
  = ["SELECT * FROM picks_uw  WHERE station = 'RCM';"].
Proof.
  exact (proj2 (proj1 (cached_columns_are_not_looked_up_again Demo.env
                         "picks_uw" None (KStr "*") false
                         [("station", VStr "RCM")] ["station"; "phase"])
                  eq_refl)).
Defined.

Lemma pick_hyphen_witness :
  PickClient.query Demo.env "picks_uw" Demo.cached (KStr "*") false
    [("station", VStr "RCM"); ("source_id", VStr "uw-123")]
  = ([], inl unsupported_wildcard).
Proof.
  exact (proj1 (pick_rejects_hyphen Demo.env "picks_uw" Demo.cached (KStr "*")
                  false [("station", VStr "RCM")] [] "source_id" "uw-123"
                  _ eq_refl eq_refl)).
Defined.

Lemma time_bound_strings_witness :
  PickClient.step Cases.env "mintime" (VStr "20200101T000100") (None, [])
  = inl (ValueError "Unsupported query key <mintime>: 20200101T000100")
  /\ QuakeClient.filter Cases.env "mintime" (VStr "20200101T000100")
     = ([], inr ["timestamp >= 1577836860.0"]).
Proof.
  pose proof (time_bound_strings_pick_rejects_catalog_converts Cases.env
                "mintime" "20200101T000100" (None, []) 60
                (or_introl eq_refl) eq_refl) as H.
  split; [exact (proj1 H)|].
  exact (eq_trans (proj1 (proj2 H)) (proj2 (proj2 H))).
Defined.

Lemma pick_one_predicate_witness :
  List.length ["station = 'RCM'"; "phase = 'P'"] = 2.
Proof.
  exact (proj1 (pick_one_predicate_per_keyword Demo.env
                  [("station", VStr "RCM"); ("phase", VStr "p")]
                  (Some "phase = 'P'") ["station = 'RCM'"; "phase = 'P'"]
                  eq_refl)).
Defined.

Lemma pick_client_witness :
  PickClientInit.init Cases.env "UW"
  = ([Execute "SHOW TABLES;"],
     inr {| PickClientInit._contributor := "UW";
            PickClientInit._table_avail := ["picks_uw"; "picks_cc"];
            PickClientInit._table := "picks_uw" |})
  /\ PickClientInit.init Cases.env "XX"
     = ([Execute "SHOW TABLES;"],
        inl (ValueError "Unsupported <contributor>: xx.")).
Proof.
  split.
  - exact (proj1 (pick_client_requires_contributor_table Cases.env "UW"
                    [["catalog"]; ["picks_uw"]; ["picks_cc"]]
                    ["catalog"; "picks_uw"; "picks_cc"] eq_refl eq_refl)).
  - exact (proj1 (pick_client_requires_contributor_table Cases.env "XX"
                    [["catalog"]; ["picks_uw"]; ["picks_cc"]]
                    ["catalog"; "picks_uw"; "picks_cc"] eq_refl eq_refl)).
Defined.

Lemma attach_response_witness :
  snd (get_waveforms Demo.env Demo.exact_rq Cases.with_inventory_path)
  = inl (NameError "Path").
Proof.
  rewrite (proj1 (attach_response_needs_inventory_object Demo.env Demo.exact_rq
                    Cases.with_inventory_path _ _ _ _
                    eq_refl eq_refl eq_refl eq_refl eq_refl eq_refl eq_refl)
             eq_refl).
  reflexivity.
Defined.

(** * The compiled predicate in the statement that is sent *)

Lemma executed_get_waveforms_checked (E : Env) (rq : request) (o : options)
    (qs : list string) :
  py_gt E (starttime rq) (endtime rq) = inr false ->
  compile_qs E rq o = inr qs ->
  executed (fst (get_waveforms E rq o))
  = [select_prefix ++ PyStr.join " AND " qs].
Proof.
  intros Hgt Hqs.
  rewrite (get_waveforms_after_checks E rq o qs Hgt Hqs).
  rewrite fst_bind, executed_app.
  assert (Hx : executed (fst (execute_index E (query_str qs))) = [query_str qs]).
  { unfold execute_index. simpl.
    destruct (sqlite_rows E (query_str qs)); reflexivity. }
  rewrite Hx. unfold query_str at 1. simpl. f_equal.
  destruct (snd (execute_index E (query_str qs))) as [e|rst]; [reflexivity|].
  apply executed_nil_bind; [apply executed_read_records|].
  intro st. apply executed_after_retrieval.
Qed.





(** C7. When the four field values are exact identifiers (no asterisk, no
    question mark, no comma) the compiled predicate is the list of the four
    equalities, one per field, followed by the two time comparisons and the
    optional quality equality: it holds no OR group and no LIKE. The
    statement built from it, which is the statement the call sends, is
    the SELECT prefix followed by these comparisons joined with AND and by
    nothing else. *)
Theorem exact_filters_compile_to_equalities (E : Env) (rq : request) (o : options) :
  Forall (fun kv => exact_identifier (snd kv) = true) (fields rq) ->
  is_time (starttime rq) = true ->
  is_time (endtime rq) = true ->
  let conds :=
    ([ CAtom (AEq "network" (network rq)); CAtom (AEq "station" (station rq));
       CAtom (AEq "location" (location rq)); CAtom (AEq "channel" (channel rq)) ]
     ++ time_conds E rq ++ quality_conds o)%list in
  compile_conds E rq o = inr conds
  /\ compile_qs E rq o = inr (map render conds)
  /\ forallb (fun c => is_equality c || is_time_comparison c) conds = true
  /\ query_str (map render conds)
     = select_prefix ++ PyStr.join " AND " (map render conds)
  /\ PyStr.join " AND " (map render conds)
     = ("network = '" ++ network rq ++ "'") ++ " AND "
       ++ ("station = '" ++ station rq ++ "'") ++ " AND "
       ++ ("location = '" ++ location rq ++ "'") ++ " AND "
       ++ ("channel = '" ++ channel rq ++ "'") ++ " AND "
       ++ ("endtime>" ++ dq ++ py_str E (starttime rq) ++ dq) ++ " AND "
       ++ match quality o with
          | VStr q => ("starttime<" ++ dq ++ py_str E (endtime rq) ++ dq)
                      ++ " AND " ++ ("quality = " ++ dq ++ q ++ dq)
          | _ => "starttime<" ++ dq ++ py_str E (endtime rq) ++ dq
          end
  /\ (py_gt E (starttime rq) (endtime rq) = inr false ->
      executed (fst (get_waveforms E rq o))
      = [select_prefix ++ PyStr.join " AND " (map render conds)]).
Proof.
  intros Hex Hs He conds.
  assert (Hc : compile_conds E rq o = inr conds).
  { rewrite (compile_conds_total E rq o Hs He). subst conds.
    unfold field_conds, fields in *.
    inversion Hex as [|? ? H1 Hex1]; subst.
    inversion Hex1 as [|? ? H2 Hex2]; subst.
    inversion Hex2 as [|? ? H3 Hex3]; subst.
    inversion Hex3 as [|? ? H4 _]; subst.
    simpl in *.
    now rewrite (field_cond_exact _ _ H1), (field_cond_exact _ _ H2),
      (field_cond_exact _ _ H3), (field_cond_exact _ _ H4). }
  assert (Hq : compile_qs E rq o = inr (map render conds)).
  { rewrite render_compile. now rewrite Hc. }
  split; [exact Hc|]. split; [exact Hq|]. split.
  { subst conds. unfold time_conds, quality_conds. simpl.
    destruct (quality o); reflexivity. }
  split; [reflexivity|]. split.
  { subst conds. unfold time_conds, quality_conds, PyStr.join.
    destruct (quality o); reflexivity. }
  intro Hgt. exact (executed_get_waveforms_checked E rq o _ Hgt Hq).
Qed.




Lemma exact_filters_witness :
  compile_conds Demo.env Demo.exact_rq Demo.defaults
  = inr [ CAtom (AEq "network" "UW"); CAtom (AEq "station" "SEA");
          CAtom (AEq "location" EmptyString); CAtom (AEq "channel" "HHZ");
          CGt "endtime" "2020-01-01T00:00:00.000000Z";
          CLt "starttime" "2020-01-01T00:01:00.000000Z" ]
  /\ executed (fst (get_waveforms Demo.env Demo.exact_rq Demo.defaults))
     = [ select_prefix
         ++ "network = 'UW' AND station = 'SEA' AND location = '' AND channel = 'HHZ' AND "
         ++ ("endtime>" ++ dq ++ "2020-01-01T00:00:00.000000Z" ++ dq) ++ " AND "
         ++ ("starttime<" ++ dq ++ "2020-01-01T00:01:00.000000Z" ++ dq) ].
Proof.
  assert (Hex : Forall (fun kv => exact_identifier (snd kv) = true)
                  (fields Demo.exact_rq)).
  { repeat constructor. }
  pose proof (exact_filters_compile_to_equalities Demo.env Demo.exact_rq
                Demo.defaults Hex eq_refl eq_refl) as H.
  cbv zeta in H.
  destruct H as (Hc & _ & _ & _ & _ & Hsent).
  split; [exact Hc | exact (Hsent eq_refl)].
Defined.
